(** * Status widget of the arionaryabhatta shield: model and properties

    The repository holds three near-identical C variants of one ZMK status
    widget: the global-singleton widget
    ([config/boards/shields/arionaryabhatta/arionaryabhatta_widget.c],
    module [Singleton]), a per-instance widget ([struct zmk_widget_status],
    module [Instance]) and a status screen ([struct status_state],
    module [Screen]).  Each is embedded below as functions over an explicit
    LVGL object store, the Zephyr delayable work item and a snapshot of the
    values the firmware queries return. *)

From Stdlib Require Import ZArith Ascii String Lia Bool.
From stdpp Require Import base option list strings.

Local Open Scope Z_scope.

(** ** C integers *)

Module CInt.

(** Conversion to an unsigned type of [bits] bits. *)
Definition to_unsigned (bits x : Z) : Z := x mod 2 ^ bits.

(** Conversion to a signed two's-complement type of [bits] bits. *)
Definition to_signed (bits x : Z) : Z :=
  (x + 2 ^ (bits - 1)) mod 2 ^ bits - 2 ^ (bits - 1).

Definition to_uint8 (x : Z) : Z := to_unsigned 8 x.
Definition to_int (x : Z) : Z := to_signed 32 x.
Definition to_int64 (x : Z) : Z := to_signed 64 x.

(** C's [/] and [%] truncate towards zero. *)
Definition div (a b : Z) : Z := Z.quot a b.
Definition rem (a b : Z) : Z := Z.rem a b.

End CInt.

(** ** The one [snprintf] format the widget uses *)

Module Printf.

Definition digit (d : Z) : ascii := ascii_of_nat (48 + Z.to_nat d).

(** Decimal digits of a non-negative number, most significant first.
    An [int] has at most ten digits, a 64-bit value at most twenty. *)
Fixpoint utoa_aux (fuel : nat) (n : Z) (acc : string) : string :=
  match fuel with
  | O => acc
  | S fuel' =>
      let acc' := String (digit (n mod 10)) acc in
      if n <? 10 then acc' else utoa_aux fuel' (n / 10) acc'
  end.

Definition utoa (n : Z) : string := utoa_aux 20 n EmptyString.

Fixpoint zeros (k : nat) (s : string) : string :=
  match k with
  | O => s
  | S k' => String "0" (zeros k' s)
  end.

(** Left-pad with ['0'] to [width] characters. *)
Definition pad0 (width : nat) (s : string) : string :=
  zeros (width - String.length s) s.

(** ["%02d"]: minimum field width two, zero padded; the sign of a
    negative argument counts towards the width. *)
Definition fmt_02d (n : Z) : string :=
  if n <? 0 then String "-" (pad0 1 (utoa (- n))) else pad0 2 (utoa n).

(** What [sprintf(buf, "%02d:%02d", a, b)] would write. *)
Definition sprintf_02d_02d (a b : Z) : string :=
  fmt_02d a +:+ ":" +:+ fmt_02d b.

(** [snprintf(buf, size, "%02d:%02d", a, b)]: at most [size - 1]
    characters are stored before the terminating NUL. *)
Definition snprintf_02d_02d (size : nat) (a b : Z) : string :=
  String.substring 0 (size - 1) (sprintf_02d_02d a b).

End Printf.

(** ** LVGL: the retained-mode object store *)

Module Lvgl.

(** An [lv_obj_t *]: [None] is the null pointer, [Some i] the [i]-th
    object created. *)
Definition ptr : Type := option nat.
Abbreviation NULL := (@None nat).

Inductive lv_color_t := lv_color_black | lv_color_white.
Inductive lv_font_t := lv_font_montserrat_48 | lv_font_montserrat_32.
Inductive lv_align_t :=
  LV_ALIGN_LEFT_MID | LV_ALIGN_CENTER | LV_ALIGN_RIGHT_MID | LV_ALIGN_TOP_MID.
Inductive lv_style_selector_t := LV_PART_MAIN.

Definition LV_OPA_TRANSP : Z := 0.

Inductive lv_style_prop :=
| bg_color (c : lv_color_t)
| bg_opa (o : Z)
| border_width (w : Z)
| pad_all (p : Z)
| text_color (c : lv_color_t)
| text_font (f : lv_font_t).

(** An [lv_style_t] after [lv_style_init]: the properties set on it. *)
Definition lv_style_t : Type := list lv_style_prop.

(** What the widget code sets on an object besides a label's text, most
    recent first. *)
Inductive lv_attr :=
| attr_size (w h : Z)
| attr_pos (x y : Z)
| attr_align (a : lv_align_t) (x_ofs y_ofs : Z)
| attr_local_style (p : lv_style_prop) (sel : lv_style_selector_t)
| attr_style (st : lv_style_t) (sel : lv_style_selector_t).

(** [obj_text] is [Some] for a label and [None] for a plain object. *)
Record lv_obj_t := mk_obj {
  obj_parent : ptr;
  obj_text : option string;
  obj_attrs : list lv_attr
}.

Abbreviation display := (list lv_obj_t).

Definition add_attr (a : lv_attr) (o : lv_obj_t) : lv_obj_t :=
  mk_obj (obj_parent o) (obj_text o) (a :: obj_attrs o).

(** A label stores the new text; on anything else the call is outside
    LVGL's contract and is modelled as leaving the object alone. *)
Definition put_text (t : string) (o : lv_obj_t) : lv_obj_t :=
  match obj_text o with
  | Some _ => mk_obj (obj_parent o) (Some t) (obj_attrs o)
  | None => o
  end.

Definition update (o : ptr) (f : lv_obj_t -> lv_obj_t) (d : display) : display :=
  match o with
  | Some i => alter f i d
  | None => d
  end.

Definition lv_obj_create (parent : ptr) (d : display) : ptr * display :=
  (Some (length d), d ++ [mk_obj parent None []]).

(** A fresh label shows LVGL's default text. *)
Definition lv_label_create (parent : ptr) (d : display) : ptr * display :=
  (Some (length d), d ++ [mk_obj parent (Some "Text") []]).

Definition lv_label_set_text (o : ptr) (text : string) (d : display) : display :=
  update o (put_text text) d.

Definition lv_label_get_text (o : ptr) (d : display) : option string :=
  match o with
  | Some i => match d !! i with Some ob => obj_text ob | None => None end
  | None => None
  end.

Definition lv_obj_get_parent (o : ptr) (d : display) : option ptr :=
  match o with
  | Some i => obj_parent <$> d !! i
  | None => None
  end.

Definition lv_obj_set_size (o : ptr) (w h : Z) : display -> display :=
  update o (add_attr (attr_size w h)).
Definition lv_obj_set_pos (o : ptr) (x y : Z) : display -> display :=
  update o (add_attr (attr_pos x y)).
Definition lv_obj_align (o : ptr) (a : lv_align_t) (x y : Z) : display -> display :=
  update o (add_attr (attr_align a x y)).
Definition lv_obj_set_style_bg_color (o : ptr) (c : lv_color_t)
    (sel : lv_style_selector_t) : display -> display :=
  update o (add_attr (attr_local_style (bg_color c) sel)).
Definition lv_obj_set_style_bg_opa (o : ptr) (v : Z)
    (sel : lv_style_selector_t) : display -> display :=
  update o (add_attr (attr_local_style (bg_opa v) sel)).
Definition lv_obj_set_style_border_width (o : ptr) (v : Z)
    (sel : lv_style_selector_t) : display -> display :=
  update o (add_attr (attr_local_style (border_width v) sel)).
Definition lv_obj_set_style_pad_all (o : ptr) (v : Z)
    (sel : lv_style_selector_t) : display -> display :=
  update o (add_attr (attr_local_style (pad_all v) sel)).
Definition lv_obj_set_style_text_color (o : ptr) (c : lv_color_t)
    (sel : lv_style_selector_t) : display -> display :=
  update o (add_attr (attr_local_style (text_color c) sel)).
Definition lv_obj_set_style_text_font (o : ptr) (f : lv_font_t)
    (sel : lv_style_selector_t) : display -> display :=
  update o (add_attr (attr_local_style (text_font f) sel)).

Definition lv_style_init : lv_style_t := [].
Definition lv_style_set_text_font (st : lv_style_t) (f : lv_font_t) : lv_style_t :=
  text_font f :: st.
Definition lv_obj_add_style (o : ptr) (st : lv_style_t)
    (sel : lv_style_selector_t) : display -> display :=
  update o (add_attr (attr_style st sel)).

(** Symbols of LVGL's built-in fonts ([lv_symbol_def.h]): the UTF-8
    encodings of U+F1EB and U+F240 .. U+F244. *)
Definition utf8 (bytes : list nat) : string :=
  string_of_list_ascii (ascii_of_nat <$> bytes).

Definition LV_SYMBOL_WIFI : string := utf8 [239; 135; 171]%nat.
Definition LV_SYMBOL_BATTERY_FULL : string := utf8 [239; 137; 128]%nat.
Definition LV_SYMBOL_BATTERY_3 : string := utf8 [239; 137; 129]%nat.
Definition LV_SYMBOL_BATTERY_2 : string := utf8 [239; 137; 130]%nat.
Definition LV_SYMBOL_BATTERY_1 : string := utf8 [239; 137; 131]%nat.
Definition LV_SYMBOL_BATTERY_EMPTY : string := utf8 [239; 137; 132]%nat.

End Lvgl.

(** ** Zephyr: delayable work *)

Module Zephyr.

(** [K_SECONDS(s)], in milliseconds. *)
Definition K_SECONDS (s : Z) : Z := s * 1000.

(** A [struct k_work_delayable]: the handler it was initialised with and,
    while it is scheduled, the delay after which the work queue runs it.
    A zero-initialised static has neither. *)
Record k_work_delayable (H : Type) := mk_work {
  work_handler : option H;
  work_timeout : option Z
}.
Arguments mk_work {H}.
Arguments work_handler {H}.
Arguments work_timeout {H}.

Definition k_work_zero {H : Type} : k_work_delayable H := mk_work None None.

Definition k_work_init_delayable {H : Type} (handler : H) : k_work_delayable H :=
  mk_work (Some handler) None.

(** [k_work_schedule] arms an idle work item and leaves one that is
    already scheduled alone. *)
Definition k_work_schedule {H : Type} (w : k_work_delayable H) (delay : Z)
    : k_work_delayable H :=
  match work_timeout w with
  | Some _ => w
  | None => mk_work (work_handler w) (Some delay)
  end.

(** The work queue takes an item whose delay has run out: it is no
    longer scheduled when its handler starts. *)
Definition k_work_take {H : Type} (w : k_work_delayable H) : k_work_delayable H :=
  mk_work (work_handler w) None.

End Zephyr.

(** ** What the firmware's queries return at one instant *)

Record env := mk_env {
  zmk_usb_is_powered : bool;
  zmk_ble_active_profile_is_connected : bool;
  zmk_battery_state_of_charge : Z;   (* uint8_t *)
  k_uptime_get : Z                   (* int64_t, milliseconds since boot *)
}.

Definition set_uptime (t : Z) (e : env) : env :=
  mk_env (zmk_usb_is_powered e) (zmk_ble_active_profile_is_connected e)
         (zmk_battery_state_of_charge e) t.

Definition set_battery (p : Z) (e : env) : env :=
  mk_env (zmk_usb_is_powered e) (zmk_ble_active_profile_is_connected e)
         p (k_uptime_get e).

Import Lvgl Zephyr.

(** ** Code shared verbatim by the three variants *)

Definition WIFI_ICON : string := LV_SYMBOL_WIFI.
Definition NO_WIFI_ICON : string := "  ".

(** The locals [hours] and [minutes] that [update_time_display] (both
    widget variants) and [update_time] (status screen) compute from the
    uptime, and the buffer [time_str] they fill with them. *)
Definition time_fields (uptime_ms : Z) : Z * Z :=
  let total_seconds := CInt.to_int (CInt.rem (CInt.div uptime_ms 1000) 86400) in
  let hours := CInt.to_int (CInt.rem (CInt.div total_seconds 3600) 24) in
  let minutes := CInt.to_int (CInt.div (CInt.rem total_seconds 3600) 60) in
  (hours, minutes).

Definition time_str (uptime_ms : Z) : string :=
  let '(hours, minutes) := time_fields uptime_ms in
  Printf.snprintf_02d_02d (* sizeof time_str *) 6 hours minutes.

(** ** Variant 1: the global-singleton widget ([arionaryabhatta_widget.c]) *)

Module Singleton.

Inductive k_work_handler_t := time_update_work_handler_fn.

(** The file's static variables and the LVGL objects they point into.
    (The static list [widgets] is never read or written.) *)
Record world := mk_world {
  connection_icon : ptr;
  time_label : ptr;
  date_label : ptr;
  battery_icon : ptr;
  is_connected : bool;
  time_update_work : k_work_delayable k_work_handler_t;
  lv : display
}.

Definition set_lv (d : display) (s : world) : world :=
  mk_world (connection_icon s) (time_label s) (date_label s) (battery_icon s)
           (is_connected s) (time_update_work s) d.
Definition set_is_connected (b : bool) (s : world) : world :=
  mk_world (connection_icon s) (time_label s) (date_label s) (battery_icon s)
           b (time_update_work s) (lv s).
Definition set_time_update_work (w : k_work_delayable k_work_handler_t)
    (s : world) : world :=
  mk_world (connection_icon s) (time_label s) (date_label s) (battery_icon s)
           (is_connected s) w (lv s).
Definition set_connection_icon (p : ptr) (s : world) : world :=
  mk_world p (time_label s) (date_label s) (battery_icon s)
           (is_connected s) (time_update_work s) (lv s).
Definition set_time_label (p : ptr) (s : world) : world :=
  mk_world (connection_icon s) p (date_label s) (battery_icon s)
           (is_connected s) (time_update_work s) (lv s).
Definition set_date_label (p : ptr) (s : world) : world :=
  mk_world (connection_icon s) (time_label s) p (battery_icon s)
           (is_connected s) (time_update_work s) (lv s).
Definition set_battery_icon (p : ptr) (s : world) : world :=
  mk_world (connection_icon s) (time_label s) (date_label s) p
           (is_connected s) (time_update_work s) (lv s).

(** The statics as the C runtime initialises them, over the objects the
    host has already created. *)
Definition boot (d : display) : world :=
  mk_world NULL NULL NULL NULL false k_work_zero d.

Definition update_connection_icon (e : env) (s : world) : world :=
  match connection_icon s with
  | None => s
  | Some _ =>
      if zmk_usb_is_powered e then
        set_is_connected true
          (set_lv (lv_label_set_text (connection_icon s) WIFI_ICON (lv s)) s)
      else if zmk_ble_active_profile_is_connected e then
        set_is_connected true
          (set_lv (lv_label_set_text (connection_icon s) WIFI_ICON (lv s)) s)
      else
        set_is_connected false
          (set_lv (lv_label_set_text (connection_icon s) NO_WIFI_ICON (lv s)) s)
  end.

Definition update_time_display (e : env) (s : world) : world :=
  match time_label s with
  | None => s
  | Some _ =>
      let uptime_ms := k_uptime_get e in
      set_lv (lv_label_set_text (time_label s) (time_str uptime_ms) (lv s)) s
  end.

Definition update_date_display (s : world) : world :=
  match date_label s with
  | None => s
  | Some _ => set_lv (lv_label_set_text (date_label s) "27/10/2025" (lv s)) s
  end.

Definition update_battery_icon (e : env) (s : world) : world :=
  match battery_icon s with
  | None => s
  | Some _ =>
      let battery_level := CInt.to_uint8 (zmk_battery_state_of_charge e) in
      if 80 <? battery_level then
        set_lv (lv_label_set_text (battery_icon s) LV_SYMBOL_BATTERY_FULL (lv s)) s
      else if 60 <? battery_level then
        set_lv (lv_label_set_text (battery_icon s) LV_SYMBOL_BATTERY_3 (lv s)) s
      else if 40 <? battery_level then
        set_lv (lv_label_set_text (battery_icon s) LV_SYMBOL_BATTERY_2 (lv s)) s
      else if 20 <? battery_level then
        set_lv (lv_label_set_text (battery_icon s) LV_SYMBOL_BATTERY_1 (lv s)) s
      else
        set_lv (lv_label_set_text (battery_icon s) LV_SYMBOL_BATTERY_EMPTY (lv s)) s
  end.

Definition time_update_work_handler (e : env) (s : world) : world :=
  let s := update_time_display e s in
  set_time_update_work (k_work_schedule (time_update_work s) (K_SECONDS 1)) s.

Definition widget_battery_status_update_cb (e : env) (s : world) : world :=
  update_battery_icon e s.

Definition widget_event_listener (e : env) (s : world) : Z * world :=
  (0, update_connection_icon e s).

Definition zmk_widget_status_init (e : env) (parent : ptr) (s : world)
    : Z * world :=
  let screen := parent in
  let d := lv s in
  let d := lv_obj_set_style_bg_color screen lv_color_black LV_PART_MAIN d in
  (* top row *)
  let '(top_row, d) := lv_obj_create screen d in
  let d := lv_obj_set_size top_row 128 20 d in
  let d := lv_obj_set_pos top_row 0 0 d in
  let d := lv_obj_set_style_bg_opa top_row LV_OPA_TRANSP LV_PART_MAIN d in
  let d := lv_obj_set_style_border_width top_row 0 LV_PART_MAIN d in
  let d := lv_obj_set_style_pad_all top_row 2 LV_PART_MAIN d in
  (* connection icon, left *)
  let '(p, d) := lv_label_create top_row d in
  let s := set_connection_icon p s in
  let d := lv_obj_align (connection_icon s) LV_ALIGN_LEFT_MID 0 0 d in
  let d := lv_obj_set_style_text_color (connection_icon s) lv_color_white LV_PART_MAIN d in
  let d := lv_label_set_text (connection_icon s) WIFI_ICON d in
  (* date, centre *)
  let '(p, d) := lv_label_create top_row d in
  let s := set_date_label p s in
  let d := lv_obj_align (date_label s) LV_ALIGN_CENTER 0 0 d in
  let d := lv_obj_set_style_text_color (date_label s) lv_color_white LV_PART_MAIN d in
  let d := lv_label_set_text (date_label s) "27/10/2025" d in
  (* battery icon, right *)
  let '(p, d) := lv_label_create top_row d in
  let s := set_battery_icon p s in
  let d := lv_obj_align (battery_icon s) LV_ALIGN_RIGHT_MID 0 0 d in
  let d := lv_obj_set_style_text_color (battery_icon s) lv_color_white LV_PART_MAIN d in
  let d := lv_label_set_text (battery_icon s) LV_SYMBOL_BATTERY_FULL d in
  (* main time display *)
  let '(p, d) := lv_label_create screen d in
  let s := set_time_label p s in
  let d := lv_obj_align (time_label s) LV_ALIGN_CENTER 0 5 d in
  let d := lv_obj_set_style_text_color (time_label s) lv_color_white LV_PART_MAIN d in
  let time_style := lv_style_init in
  let time_style := lv_style_set_text_font time_style lv_font_montserrat_48 in
  let d := lv_obj_add_style (time_label s) time_style LV_PART_MAIN d in
  let d := lv_label_set_text (time_label s) "20:20" d in
  let s := set_lv d s in
  (* initialise values *)
  let s := update_connection_icon e s in
  let s := update_date_display s in
  let s := update_battery_icon e s in
  let s := update_time_display e s in
  (* start the time update timer *)
  let s := set_time_update_work (k_work_init_delayable time_update_work_handler_fn) s in
  let s := set_time_update_work (k_work_schedule (time_update_work s) (K_SECONDS 1)) s in
  (0, s).

Definition zmk_widget_status_obj : ptr := NULL.

(** The system work queue, when the delay of [time_update_work] has run
    out: the uptime has advanced by that delay, the item leaves the
    schedule and its handler runs.  [None]: nothing is scheduled. *)
Definition run_handler (h : k_work_handler_t) : env -> world -> world :=
  match h with
  | time_update_work_handler_fn => time_update_work_handler
  end.

Definition work_queue_step (e : env) (s : world) : option (env * world) :=
  match work_timeout (time_update_work s), work_handler (time_update_work s) with
  | Some delay, Some h =>
      let e' := set_uptime (k_uptime_get e + delay) e in
      Some (e', run_handler h e' (set_time_update_work (k_work_take (time_update_work s)) s))
  | _, _ => None
  end.

Fixpoint work_queue_run (n : nat) (e : env) (s : world) : option (env * world) :=
  match n with
  | O => Some (e, s)
  | S n' =>
      match work_queue_step e s with
      | Some (e', s') => work_queue_run n' e' s'
      | None => None
      end
  end.

End Singleton.

(** ** Variant 2: the per-instance widget ([struct zmk_widget_status]) *)

Module Instance.

Inductive k_work_handler_t := time_update_work_handler_fn.

(** [struct zmk_widget_status], without the list node the file never
    links. *)
Record zmk_widget_status := mk_widget {
  obj : ptr;
  connection_icon : ptr;
  time_label : ptr;
  date_label : ptr;
  battery_icon : ptr
}.

(** The file's one static and the LVGL objects. *)
Record world := mk_world {
  time_update_work : k_work_delayable k_work_handler_t;
  lv : display
}.

Definition boot (d : display) : world := mk_world k_work_zero d.

Definition update_connection_icon (e : env) (icon : ptr) (d : display) : display :=
  match icon with
  | None => d
  | Some _ =>
      if zmk_usb_is_powered e || zmk_ble_active_profile_is_connected e then
        lv_label_set_text icon WIFI_ICON d
      else
        lv_label_set_text icon NO_WIFI_ICON d
  end.

Definition update_time_display (e : env) (label : ptr) (d : display) : display :=
  match label with
  | None => d
  | Some _ =>
      let uptime_ms := k_uptime_get e in
      lv_label_set_text label (time_str uptime_ms) d
  end.

Definition update_battery_icon (e : env) (icon : ptr) (d : display) : display :=
  match icon with
  | None => d
  | Some _ =>
      let battery_level := CInt.to_uint8 (zmk_battery_state_of_charge e) in
      if 80 <? battery_level then lv_label_set_text icon LV_SYMBOL_BATTERY_FULL d
      else if 60 <? battery_level then lv_label_set_text icon LV_SYMBOL_BATTERY_3 d
      else if 40 <? battery_level then lv_label_set_text icon LV_SYMBOL_BATTERY_2 d
      else if 20 <? battery_level then lv_label_set_text icon LV_SYMBOL_BATTERY_1 d
      else lv_label_set_text icon LV_SYMBOL_BATTERY_EMPTY d
  end.

(** The handler's body is empty. *)
Definition time_update_work_handler (e : env) (s : world) : world := s.

Definition zmk_widget_status_init (e : env) (widget : zmk_widget_status)
    (parent : ptr) (s : world) : Z * zmk_widget_status * world :=
  let d := lv s in
  let '(o, d) := lv_obj_create parent d in
  let d := lv_obj_set_size o 128 64 d in
  let d := lv_obj_set_style_bg_color o lv_color_black LV_PART_MAIN d in
  let d := lv_obj_set_style_border_width o 0 LV_PART_MAIN d in
  let d := lv_obj_set_style_pad_all o 0 LV_PART_MAIN d in
  (* top row *)
  let '(top_row, d) := lv_obj_create o d in
  let d := lv_obj_set_size top_row 128 20 d in
  let d := lv_obj_set_pos top_row 0 0 d in
  let d := lv_obj_set_style_bg_opa top_row LV_OPA_TRANSP LV_PART_MAIN d in
  let d := lv_obj_set_style_border_width top_row 0 LV_PART_MAIN d in
  let d := lv_obj_set_style_pad_all top_row 2 LV_PART_MAIN d in
  (* connection icon, left *)
  let '(ci, d) := lv_label_create top_row d in
  let d := lv_obj_align ci LV_ALIGN_LEFT_MID 0 0 d in
  let d := lv_obj_set_style_text_color ci lv_color_white LV_PART_MAIN d in
  let d := lv_label_set_text ci WIFI_ICON d in
  (* date, centre *)
  let '(dl, d) := lv_label_create top_row d in
  let d := lv_obj_align dl LV_ALIGN_CENTER 0 0 d in
  let d := lv_obj_set_style_text_color dl lv_color_white LV_PART_MAIN d in
  let d := lv_label_set_text dl "27/10/2025" d in
  (* battery icon, right *)
  let '(bi, d) := lv_label_create top_row d in
  let d := lv_obj_align bi LV_ALIGN_RIGHT_MID 0 0 d in
  let d := lv_obj_set_style_text_color bi lv_color_white LV_PART_MAIN d in
  let d := lv_label_set_text bi LV_SYMBOL_BATTERY_FULL d in
  (* main time display *)
  let '(tl, d) := lv_label_create o d in
  let d := lv_obj_align tl LV_ALIGN_CENTER 0 5 d in
  let d := lv_obj_set_style_text_color tl lv_color_white LV_PART_MAIN d in
  let time_style := lv_style_init in
  let time_style := lv_style_set_text_font time_style lv_font_montserrat_48 in
  let d := lv_obj_add_style tl time_style LV_PART_MAIN d in
  let d := lv_label_set_text tl "20:20" d in
  let widget := mk_widget o ci tl dl bi in
  (* initialise values *)
  let d := update_connection_icon e (connection_icon widget) d in
  let d := update_battery_icon e (battery_icon widget) d in
  let d := update_time_display e (time_label widget) d in
  (0, widget, mk_world (time_update_work s) d).

Definition zmk_widget_status_obj (widget : zmk_widget_status) : ptr :=
  obj widget.

(** The same work queue as in [Singleton], over this file's static. *)
Definition run_handler (h : k_work_handler_t) : env -> world -> world :=
  match h with
  | time_update_work_handler_fn => time_update_work_handler
  end.

Definition work_queue_step (e : env) (s : world) : option (env * world) :=
  match work_timeout (time_update_work s), work_handler (time_update_work s) with
  | Some delay, Some h =>
      let e' := set_uptime (k_uptime_get e + delay) e in
      Some (e', run_handler h e' (mk_world (k_work_take (time_update_work s)) (lv s)))
  | _, _ => None
  end.

End Instance.

(** ** Variant 3: the status screen ([struct status_state]) *)

Module Screen.

Record status_state := mk_state {
  connection_icon : ptr;
  time_label : ptr;
  date_label : ptr;
  battery_icon : ptr
}.

(** The static [state] and the LVGL objects.  (The static list [widgets]
    and the image [balloon] are never used.) *)
Record world := mk_world {
  state : status_state;
  lv : display
}.

Definition boot (d : display) : world :=
  mk_world (mk_state NULL NULL NULL NULL) d.

Definition set_lv (d : display) (s : world) : world := mk_world (state s) d.

(** The two font options the build configuration may enable. *)
Record kconfig := mk_kconfig {
  CONFIG_LV_FONT_MONTSERRAT_48 : bool;
  CONFIG_LV_FONT_MONTSERRAT_32 : bool
}.

Definition set_connection_status (e : env) (s : world) : world :=
  match connection_icon (state s) with
  | None => s
  | Some _ =>
      if zmk_usb_is_powered e || zmk_ble_active_profile_is_connected e then
        set_lv (lv_label_set_text (connection_icon (state s)) WIFI_ICON (lv s)) s
      else
        set_lv (lv_label_set_text (connection_icon (state s)) NO_WIFI_ICON (lv s)) s
  end.

Definition set_battery_status (e : env) (s : world) : world :=
  match battery_icon (state s) with
  | None => s
  | Some _ =>
      let battery_level := CInt.to_uint8 (zmk_battery_state_of_charge e) in
      if 80 <? battery_level then
        set_lv (lv_label_set_text (battery_icon (state s)) LV_SYMBOL_BATTERY_FULL (lv s)) s
      else if 60 <? battery_level then
        set_lv (lv_label_set_text (battery_icon (state s)) LV_SYMBOL_BATTERY_3 (lv s)) s
      else if 40 <? battery_level then
        set_lv (lv_label_set_text (battery_icon (state s)) LV_SYMBOL_BATTERY_2 (lv s)) s
      else if 20 <? battery_level then
        set_lv (lv_label_set_text (battery_icon (state s)) LV_SYMBOL_BATTERY_1 (lv s)) s
      else
        set_lv (lv_label_set_text (battery_icon (state s)) LV_SYMBOL_BATTERY_EMPTY (lv s)) s
  end.

Definition update_time (e : env) (s : world) : world :=
  match time_label (state s) with
  | None => s
  | Some _ =>
      let uptime_ms := k_uptime_get e in
      set_lv (lv_label_set_text (time_label (state s)) (time_str uptime_ms) (lv s)) s
  end.

Definition zmk_display_status_screen (cfg : kconfig) (e : env) (s : world)
    : ptr * world :=
  let d := lv s in
  let st := state s in
  let '(screen, d) := lv_obj_create NULL d in
  let d := lv_obj_set_style_bg_color screen lv_color_black LV_PART_MAIN d in
  (* top status bar container *)
  let '(top_bar, d) := lv_obj_create screen d in
  let d := lv_obj_set_size top_bar 128 16 d in
  let d := lv_obj_align top_bar LV_ALIGN_TOP_MID 0 0 d in
  let d := lv_obj_set_style_bg_opa top_bar LV_OPA_TRANSP LV_PART_MAIN d in
  let d := lv_obj_set_style_border_width top_bar 0 LV_PART_MAIN d in
  let d := lv_obj_set_style_pad_all top_bar 0 LV_PART_MAIN d in
  (* connection icon, left *)
  let '(p, d) := lv_label_create top_bar d in
  let st := mk_state p (time_label st) (date_label st) (battery_icon st) in
  let d := lv_obj_align (connection_icon st) LV_ALIGN_LEFT_MID 2 0 d in
  let d := lv_obj_set_style_text_color (connection_icon st) lv_color_white LV_PART_MAIN d in
  (* date, centre *)
  let '(p, d) := lv_label_create top_bar d in
  let st := mk_state (connection_icon st) (time_label st) p (battery_icon st) in
  let d := lv_obj_align (date_label st) LV_ALIGN_CENTER 0 0 d in
  let d := lv_obj_set_style_text_color (date_label st) lv_color_white LV_PART_MAIN d in
  let d := lv_label_set_text (date_label st) "27/10/2025" d in
  (* battery icon, right *)
  let '(p, d) := lv_label_create top_bar d in
  let st := mk_state (connection_icon st) (time_label st) (date_label st) p in
  let d := lv_obj_align (battery_icon st) LV_ALIGN_RIGHT_MID (-2) 0 d in
  let d := lv_obj_set_style_text_color (battery_icon st) lv_color_white LV_PART_MAIN d in
  (* large time display *)
  let '(p, d) := lv_label_create screen d in
  let st := mk_state (connection_icon st) p (date_label st) (battery_icon st) in
  let d := lv_obj_align (time_label st) LV_ALIGN_CENTER 0 8 d in
  let d := lv_obj_set_style_text_color (time_label st) lv_color_white LV_PART_MAIN d in
  let d :=
    if CONFIG_LV_FONT_MONTSERRAT_48 cfg then
      lv_obj_set_style_text_font (time_label st) lv_font_montserrat_48 LV_PART_MAIN d
    else if CONFIG_LV_FONT_MONTSERRAT_32 cfg then
      lv_obj_set_style_text_font (time_label st) lv_font_montserrat_32 LV_PART_MAIN d
    else d in
  let s := mk_world st d in
  (* initialise all displays *)
  let s := set_connection_status e s in
  let s := set_battery_status e s in
  let s := update_time e s in
  (screen, s).

End Screen.

(** ** The operations as the specification words them *)

Module Spec.

(** classifyConnection: the connected glyph if usbPowered OR
    bleConnected, else the blank one. *)
Definition classifyConnection (usbPowered bleConnected : bool) : string :=
  if usbPowered || bleConnected then WIFI_ICON else NO_WIFI_ICON.

(** classifyBattery: the five rows of the table. *)
Inductive battery_row : Z -> string -> Prop :=
| row_full p : 80 < p -> battery_row p LV_SYMBOL_BATTERY_FULL
| row_tier3 p : 61 <= p <= 80 -> battery_row p LV_SYMBOL_BATTERY_3
| row_tier2 p : 41 <= p <= 60 -> battery_row p LV_SYMBOL_BATTERY_2
| row_tier1 p : 21 <= p <= 40 -> battery_row p LV_SYMBOL_BATTERY_1
| row_empty p : p <= 20 -> battery_row p LV_SYMBOL_BATTERY_EMPTY.

Definition classifyBattery (percent : Z) : string :=
  if 80 <? percent then LV_SYMBOL_BATTERY_FULL
  else if (61 <=? percent) && (percent <=? 80) then LV_SYMBOL_BATTERY_3
  else if (41 <=? percent) && (percent <=? 60) then LV_SYMBOL_BATTERY_2
  else if (21 <=? percent) && (percent <=? 40) then LV_SYMBOL_BATTERY_1
  else LV_SYMBOL_BATTERY_EMPTY.

Definition battery_glyphs : list string :=
  [LV_SYMBOL_BATTERY_FULL; LV_SYMBOL_BATTERY_3; LV_SYMBOL_BATTERY_2;
   LV_SYMBOL_BATTERY_1; LV_SYMBOL_BATTERY_EMPTY].

(** The clamp of a reading to [0,100]. *)
Definition clamp (percent : Z) : Z := Z.max 0 (Z.min percent 100).

(** A number below one hundred, zero-padded to two digits. *)
Definition two_digits (n : Z) : string :=
  String (Printf.digit (n / 10)) (String (Printf.digit (n mod 10)) EmptyString).

(** formatClock, with mathematical (flooring) division and modulo. *)
Definition formatClock (elapsedMillis : Z) : string :=
  let totalSeconds := (elapsedMillis / 1000) mod 86400 in
  let hours := (totalSeconds / 3600) mod 24 in
  let minutes := (totalSeconds mod 3600) / 60 in
  two_digits hours +:+ ":" +:+ two_digits minutes.

(** A text in HH:MM form, HH in [00,23] and MM in [00,59]. *)
Definition is_HHMM (t : string) : Prop :=
  exists h m, 0 <= h <= 23 /\ 0 <= m <= 59 /\
              t = two_digits h +:+ ":" +:+ two_digits m.

Definition dateText : string := "27/10/2025".

End Spec.

(** ** Predicates on the object store and on program states *)

(** The handle points at a label of the store. *)
Definition is_label (o : ptr) (d : display) : Prop :=
  is_Some (lv_label_get_text o d).

(** Four label handles of a widget: all null, or four different labels. *)
Definition handles_ok (ci tl dl bi : ptr) (d : display) : Prop :=
  (ci = NULL /\ tl = NULL /\ dl = NULL /\ bi = NULL) \/
  (is_label ci d /\ is_label tl d /\ is_label dl d /\ is_label bi d /\
   ci <> tl /\ ci <> dl /\ ci <> bi /\ tl <> dl /\ tl <> bi /\ dl <> bi).

Module SingletonRun.
Import Singleton.

(** The states the widget can be in: the statics as booted, then any
    interleaving of initialisation, USB events, battery events and
    timer expiries. *)
Inductive reachable : world -> Prop :=
| reach_boot d : reachable (boot d)
| reach_init e parent s :
    reachable s -> reachable (snd (zmk_widget_status_init e parent s))
| reach_usb_event e s :
    reachable s -> reachable (snd (widget_event_listener e s))
| reach_battery_event e s :
    reachable s -> reachable (widget_battery_status_update_cb e s)
| reach_timer e s e' s' :
    reachable s -> work_queue_step e s = Some (e', s') -> reachable s'.

Definition connection_text (s : world) : option string :=
  lv_label_get_text (connection_icon s) (lv s).
Definition clock_text (s : world) : option string :=
  lv_label_get_text (time_label s) (lv s).
Definition date_text (s : world) : option string :=
  lv_label_get_text (date_label s) (lv s).
Definition battery_text (s : world) : option string :=
  lv_label_get_text (battery_icon s) (lv s).

(** The timer is armed: initialised with the handler and scheduled one
    second ahead. *)
Definition armed (s : world) : Prop :=
  time_update_work s =
  mk_work (Some time_update_work_handler_fn) (Some (K_SECONDS 1)).

End SingletonRun.

Module InstanceRun.
Import Instance.

(** A widget instance and the store after initialisation and any
    further refresh of the instance's own labels. *)
Inductive reachable : zmk_widget_status -> world -> Prop :=
| reach_init e w0 parent s0 rc w s :
    zmk_widget_status_init e w0 parent s0 = (rc, w, s) -> reachable w s
| reach_connection e w s :
    reachable w s ->
    reachable w (mk_world (time_update_work s)
                          (update_connection_icon e (connection_icon w) (lv s)))
| reach_battery e w s :
    reachable w s ->
    reachable w (mk_world (time_update_work s)
                          (update_battery_icon e (battery_icon w) (lv s)))
| reach_time e w s :
    reachable w s ->
    reachable w (mk_world (time_update_work s)
                          (update_time_display e (time_label w) (lv s)))
| reach_handler e w s :
    reachable w s -> reachable w (time_update_work_handler e s).

Definition date_text (w : zmk_widget_status) (s : world) : option string :=
  lv_label_get_text (date_label w) (lv s).

End InstanceRun.

Module ScreenRun.
Import Screen.

Inductive reachable : world -> Prop :=
| reach_boot d : reachable (boot d)
| reach_screen cfg e s :
    reachable s -> reachable (snd (zmk_display_status_screen cfg e s))
| reach_connection e s : reachable s -> reachable (set_connection_status e s)
| reach_battery e s : reachable s -> reachable (set_battery_status e s)
| reach_time e s : reachable s -> reachable (update_time e s).

Definition connection_text (s : world) : option string :=
  lv_label_get_text (connection_icon (state s)) (lv s).
Definition clock_text (s : world) : option string :=
  lv_label_get_text (time_label (state s)) (lv s).
Definition date_text (s : world) : option string :=
  lv_label_get_text (date_label (state s)) (lv s).
Definition battery_text (s : world) : option string :=
  lv_label_get_text (battery_icon (state s)) (lv s).

End ScreenRun.

(** ** What initialisation builds, and what the refreshes promise *)

Module Built.

Definition white : lv_attr :=
  attr_local_style (text_color lv_color_white) LV_PART_MAIN.

Definition shown_connection (e : env) : string :=
  Spec.classifyConnection (zmk_usb_is_powered e)
                          (zmk_ble_active_profile_is_connected e).

Definition shown_battery (e : env) : string :=
  Spec.classifyBattery (CInt.to_uint8 (zmk_battery_state_of_charge e)).

(** The objects [Singleton.zmk_widget_status_init] appends to a store of
    [n] objects: top row, connection icon, date, battery icon, clock. *)
Definition singleton_objects (e : env) (parent : ptr) (n : nat) : display :=
  [ mk_obj parent None
      [attr_local_style (pad_all 2) LV_PART_MAIN;
       attr_local_style (border_width 0) LV_PART_MAIN;
       attr_local_style (bg_opa LV_OPA_TRANSP) LV_PART_MAIN;
       attr_pos 0 0; attr_size 128 20];
    mk_obj (Some n) (Some (shown_connection e))
      [white; attr_align LV_ALIGN_LEFT_MID 0 0];
    mk_obj (Some n) (Some "27/10/2025")
      [white; attr_align LV_ALIGN_CENTER 0 0];
    mk_obj (Some n) (Some (shown_battery e))
      [white; attr_align LV_ALIGN_RIGHT_MID 0 0];
    mk_obj parent (Some (time_str (k_uptime_get e)))
      [attr_style [text_font lv_font_montserrat_48] LV_PART_MAIN;
       white; attr_align LV_ALIGN_CENTER 0 5] ].

(** The objects [Instance.zmk_widget_status_init] appends: the widget's
    container, then the same five. *)
Definition instance_objects (e : env) (parent : ptr) (n : nat) : display :=
  [ mk_obj parent None
      [attr_local_style (pad_all 0) LV_PART_MAIN;
       attr_local_style (border_width 0) LV_PART_MAIN;
       attr_local_style (bg_color lv_color_black) LV_PART_MAIN;
       attr_size 128 64];
    mk_obj (Some n) None
      [attr_local_style (pad_all 2) LV_PART_MAIN;
       attr_local_style (border_width 0) LV_PART_MAIN;
       attr_local_style (bg_opa LV_OPA_TRANSP) LV_PART_MAIN;
       attr_pos 0 0; attr_size 128 20];
    mk_obj (Some (n + 1)%nat) (Some (shown_connection e))
      [white; attr_align LV_ALIGN_LEFT_MID 0 0];
    mk_obj (Some (n + 1)%nat) (Some "27/10/2025")
      [white; attr_align LV_ALIGN_CENTER 0 0];
    mk_obj (Some (n + 1)%nat) (Some (shown_battery e))
      [white; attr_align LV_ALIGN_RIGHT_MID 0 0];
    mk_obj (Some n) (Some (time_str (k_uptime_get e)))
      [attr_style [text_font lv_font_montserrat_48] LV_PART_MAIN;
       white; attr_align LV_ALIGN_CENTER 0 5] ].

Definition screen_font (cfg : Screen.kconfig) : list lv_attr :=
  if Screen.CONFIG_LV_FONT_MONTSERRAT_48 cfg then
    [attr_local_style (text_font lv_font_montserrat_48) LV_PART_MAIN]
  else if Screen.CONFIG_LV_FONT_MONTSERRAT_32 cfg then
    [attr_local_style (text_font lv_font_montserrat_32) LV_PART_MAIN]
  else [].

(** The objects [Screen.zmk_display_status_screen] appends: the screen,
    the top bar and the four labels. *)
Definition screen_objects (cfg : Screen.kconfig) (e : env) (n : nat) : display :=
  [ mk_obj NULL None
      [attr_local_style (bg_color lv_color_black) LV_PART_MAIN];
    mk_obj (Some n) None
      [attr_local_style (pad_all 0) LV_PART_MAIN;
       attr_local_style (border_width 0) LV_PART_MAIN;
       attr_local_style (bg_opa LV_OPA_TRANSP) LV_PART_MAIN;
       attr_align LV_ALIGN_TOP_MID 0 0; attr_size 128 16];
    mk_obj (Some (n + 1)%nat) (Some (shown_connection e))
      [white; attr_align LV_ALIGN_LEFT_MID 2 0];
    mk_obj (Some (n + 1)%nat) (Some "27/10/2025")
      [white; attr_align LV_ALIGN_CENTER 0 0];
    mk_obj (Some (n + 1)%nat) (Some (shown_battery e))
      [white; attr_align LV_ALIGN_RIGHT_MID (-2) 0];
    mk_obj (Some n) (Some (time_str (k_uptime_get e)))
      (screen_font cfg ++ [white; attr_align LV_ALIGN_CENTER 0 8]) ].

(** The invariant of a widget's handles: well formed, and the date label,
    once created, shows the fixed date. *)
Definition widget_inv (ci tl dl bi : ptr) (d : display) : Prop :=
  handles_ok ci tl dl bi d /\
  (dl <> NULL -> lv_label_get_text dl d = Some Spec.dateText).

Definition singleton_inv (s : Singleton.world) : Prop :=
  widget_inv (Singleton.connection_icon s) (Singleton.time_label s)
             (Singleton.date_label s) (Singleton.battery_icon s)
             (Singleton.lv s).

(** A state in which the clock label exists and the timer is armed. *)
Definition singleton_ticking (s : Singleton.world) : Prop :=
  singleton_inv s /\ Singleton.time_label s <> NULL /\ SingletonRun.armed s.

Definition instance_inv (w : Instance.zmk_widget_status) (s : Instance.world) : Prop :=
  widget_inv (Instance.connection_icon w) (Instance.time_label w)
             (Instance.date_label w) (Instance.battery_icon w)
             (Instance.lv s) /\
  Instance.date_label w <> NULL.

Definition screen_inv (s : Screen.world) : Prop :=
  widget_inv (Screen.connection_icon (Screen.state s))
             (Screen.time_label (Screen.state s))
             (Screen.date_label (Screen.state s))
             (Screen.battery_icon (Screen.state s)) (Screen.lv s).

(** What the connection icon must show for the two query results. *)
Definition connection_contract (usb ble : bool) (shown : option string) : Prop :=
  (shown = Some WIFI_ICON <-> usb || ble = true) /\
  (shown = Some NO_WIFI_ICON <-> usb || ble = false).

(** What the battery icon must show for a reading [p]: the glyph of the
    one table row that [p] falls in. *)
Definition battery_contract (p : Z) (shown : option string) : Prop :=
  exists g, shown = Some g /\ Spec.battery_row p g /\ g ∈ Spec.battery_glyphs /\
            forall g', Spec.battery_row p g' -> g' = g.

(** What the clock label must show at uptime [ms]: five characters,
    HH:MM, and all of what the format produces. *)
Definition clock_contract (ms : Z) (shown : option string) : Prop :=
  exists t, shown = Some t /\ String.length t = 5%nat /\ Spec.is_HHMM t /\
            (String.length t < 6)%nat /\
            t = Printf.sprintf_02d_02d (fst (time_fields ms)) (snd (time_fields ms)).

(** One hundred checks that ["%02d"] prints the two digits. *)
Definition fmt_check (k : nat) : bool :=
  String.eqb (Printf.fmt_02d (Z.of_nat k)) (Spec.two_digits (Z.of_nat k)).

End Built.

(** ** A concrete scenario *)

Import Built.

(** A store with one screen, the two widget variants initialised on it and
    the status screen built, with the battery at 45% and the Bluetooth
    profile connected, one hour, one minute and one second after boot. *)
Definition env0 : env := mk_env false true 45 3661000.
Definition store0 : display := [mk_obj NULL None []].
Definition singleton0 : Singleton.world :=
  snd (Singleton.zmk_widget_status_init env0 (Some 0%nat) (Singleton.boot store0)).
Definition instance0 : Instance.zmk_widget_status * Instance.world :=
  let r := Instance.zmk_widget_status_init env0 (Instance.mk_widget NULL NULL NULL NULL NULL)
             (Some 0%nat) (Instance.boot store0) in
  (snd (fst r), snd r).
Definition screen0 : Screen.world :=
  snd (Screen.zmk_display_status_screen (Screen.mk_kconfig true false) env0
         (Screen.boot [])).

(** The boundary values of the battery table and the glyph each must show. *)
Definition boundary_table : list (Z * string) :=
  [ (0, LV_SYMBOL_BATTERY_EMPTY); (20, LV_SYMBOL_BATTERY_EMPTY);
    (21, LV_SYMBOL_BATTERY_1); (40, LV_SYMBOL_BATTERY_1);
    (41, LV_SYMBOL_BATTERY_2); (60, LV_SYMBOL_BATTERY_2);
    (61, LV_SYMBOL_BATTERY_3); (80, LV_SYMBOL_BATTERY_3);
    (81, LV_SYMBOL_BATTERY_FULL); (100, LV_SYMBOL_BATTERY_FULL) ].

(** ** Measures used by the further properties *)

Module Measure.

(** The minute of the 24-hour cycle an uptime falls in. *)
Definition minute_of_day (ms : Z) : Z := (ms / 60000) mod 1440.

(** How full a battery glyph looks: 0 for the empty one, 4 for the full
    one. *)
Definition fullness (g : string) : nat :=
  if String.eqb g LV_SYMBOL_BATTERY_FULL then 4
  else if String.eqb g LV_SYMBOL_BATTERY_3 then 3
  else if String.eqb g LV_SYMBOL_BATTERY_2 then 2
  else if String.eqb g LV_SYMBOL_BATTERY_1 then 1
  else 0.

(** Two numbers below one hundred with the same two digits are equal:
    the check of one pair. *)
Definition digits_check (a b : nat) : bool :=
  implb (String.eqb (Spec.two_digits (Z.of_nat a)) (Spec.two_digits (Z.of_nat b)))
        (Nat.eqb a b).

(** What the four labels of the singleton widget show once they exist:
    the glyph that [is_connected] stands for, a formatted uptime, the
    fixed date and one of the five battery glyphs. *)
Definition singleton_display_ok (s : Singleton.world) : Prop :=
  SingletonRun.connection_text s
  = Some (if Singleton.is_connected s then WIFI_ICON else NO_WIFI_ICON) /\
  (exists ms, SingletonRun.clock_text s = Some (time_str ms)) /\
  SingletonRun.date_text s = Some Spec.dateText /\
  (exists g, SingletonRun.battery_text s = Some g /\ g ∈ Spec.battery_glyphs).

(** Not initialised, or initialised with a well-formed display. *)
Definition singleton_shown (s : Singleton.world) : Prop :=
  (Singleton.connection_icon s = NULL /\ Singleton.time_label s = NULL /\
   Singleton.date_label s = NULL /\ Singleton.battery_icon s = NULL) \/
  (Singleton.connection_icon s <> NULL /\ Singleton.time_label s <> NULL /\
   Singleton.date_label s <> NULL /\ Singleton.battery_icon s <> NULL /\
   singleton_display_ok s).

(** The timer of the singleton widget: untouched while the widget is not
    initialised, armed ever after. *)
Definition singleton_timer_ok (s : Singleton.world) : Prop :=
  (Singleton.time_label s = NULL /\ Singleton.time_update_work s = k_work_zero) \/
  (Singleton.time_label s <> NULL /\ SingletonRun.armed s).

(** The four label handles of a per-instance widget. *)
Definition instance_labels (w : Instance.zmk_widget_status) : list ptr :=
  [Instance.connection_icon w; Instance.time_label w;
   Instance.date_label w; Instance.battery_icon w].

End Measure.

(** * Properties *)

(** ** Integer conversions and formatting *)

Module CIntFacts.
Import CInt.

Lemma to_uint8_id x : 0 <= x <= 255 -> to_uint8 x = x.
Proof. intros H. unfold to_uint8, to_unsigned. apply Z.mod_small. lia. Qed.

Lemma to_uint8_range x : 0 <= to_uint8 x <= 255.
Proof.
  unfold to_uint8, to_unsigned.
  pose proof (Z.mod_pos_bound x (2 ^ 8) eq_refl). change (2 ^ 8) with 256 in *. lia.
Qed.

Lemma to_int_id x : - 2147483648 <= x < 2147483648 -> to_int x = x.
Proof.
  intros H. unfold to_int, to_signed.
  change (2 ^ (32 - 1)) with 2147483648.
  change (2 ^ 32) with 4294967296.
  rewrite Z.mod_small; lia.
Qed.

End CIntFacts.

Module PrintfFacts.
Import Printf.

(** ["%02d"] on a number below one hundred prints its two digits: all
    hundred cases are run. *)
Lemma fmt_check_all : forallb Built.fmt_check (seq 0 100) = true.
Proof. vm_compute. reflexivity. Qed.

Lemma fmt_02d_two_digits n : 0 <= n < 100 -> fmt_02d n = Spec.two_digits n.
Proof.
  intros Hn.
  pose proof fmt_check_all as Hall.
  rewrite forallb_forall in Hall.
  specialize (Hall (Z.to_nat n)).
  unfold Built.fmt_check in Hall. rewrite Z2Nat.id in Hall by lia.
  apply String.eqb_eq, Hall, in_seq. lia.
Qed.

Lemma two_digits_colon_length a b :
  String.length (Spec.two_digits a +:+ ":" +:+ Spec.two_digits b) = 5%nat.
Proof. reflexivity. Qed.

Lemma sprintf_small a b :
  0 <= a < 100 -> 0 <= b < 100 ->
  sprintf_02d_02d a b = Spec.two_digits a +:+ ":" +:+ Spec.two_digits b.
Proof.
  intros Ha Hb. unfold sprintf_02d_02d.
  now rewrite !fmt_02d_two_digits.
Qed.

(** Five characters fit the six-byte buffer: nothing is cut. *)
Lemma snprintf_small a b :
  0 <= a < 100 -> 0 <= b < 100 ->
  snprintf_02d_02d 6 a b = sprintf_02d_02d a b.
Proof.
  intros Ha Hb. unfold snprintf_02d_02d.
  rewrite sprintf_small by assumption. reflexivity.
Qed.

End PrintfFacts.

(** ** The clock arithmetic *)

Section Clock.
Variable uptime_ms : Z.
Hypothesis uptime_nonneg : 0 <= uptime_ms.

Let total := (uptime_ms / 1000) mod 86400.

Lemma total_range : 0 <= total < 86400.
Proof. unfold total. apply Z.mod_pos_bound. lia. Qed.

Lemma time_fields_floor :
  time_fields uptime_ms = ((total / 3600) mod 24, (total mod 3600) / 60).
Proof.
  pose proof total_range as Ht.
  unfold time_fields, CInt.div, CInt.rem.
  assert (Hq : 0 <= uptime_ms / 1000) by (apply Z.div_pos; lia).
  rewrite (Z.quot_div_nonneg uptime_ms 1000) by lia.
  rewrite (Z.rem_mod_nonneg (uptime_ms / 1000) 86400) by lia.
  fold total.
  rewrite (CIntFacts.to_int_id total) by lia.
  assert (Hh : 0 <= total / 3600 < 24).
  { split; [apply Z.div_pos; lia | apply Z.div_lt_upper_bound; lia]. }
  rewrite (Z.quot_div_nonneg total 3600) by lia.
  rewrite (Z.rem_mod_nonneg (total / 3600) 24) by lia.
  pose proof (Z.mod_pos_bound (total / 3600) 24 eq_refl) as Hh'.
  rewrite (CIntFacts.to_int_id ((total / 3600) mod 24)) by lia.
  pose proof (Z.mod_pos_bound total 3600 eq_refl) as Hm.
  rewrite (Z.rem_mod_nonneg total 3600) by lia.
  rewrite (Z.quot_div_nonneg (total mod 3600) 60) by lia.
  assert (Hm' : 0 <= total mod 3600 / 60 < 60).
  { split; [apply Z.div_pos; lia | apply Z.div_lt_upper_bound; lia]. }
  rewrite (CIntFacts.to_int_id (total mod 3600 / 60)) by lia.
  reflexivity.
Qed.

Lemma time_fields_range :
  0 <= fst (time_fields uptime_ms) <= 23 /\ 0 <= snd (time_fields uptime_ms) <= 59.
Proof.
  rewrite time_fields_floor. simpl.
  pose proof total_range as Ht.
  pose proof (Z.mod_pos_bound (total / 3600) 24 eq_refl).
  pose proof (Z.mod_pos_bound total 3600 eq_refl).
  assert (0 <= total mod 3600 / 60 < 60).
  { split; [apply Z.div_pos; lia | apply Z.div_lt_upper_bound; lia]. }
  lia.
Qed.

Lemma time_str_formatClock : time_str uptime_ms = Spec.formatClock uptime_ms.
Proof.
  pose proof time_fields_range as [Hh Hm].
  unfold time_str. destruct (time_fields uptime_ms) as [h m] eqn:E.
  simpl in Hh, Hm.
  rewrite PrintfFacts.snprintf_small, PrintfFacts.sprintf_small by lia.
  rewrite time_fields_floor in E. injection E as <- <-.
  reflexivity.
Qed.

Lemma time_str_untruncated :
  time_str uptime_ms =
  Printf.sprintf_02d_02d (fst (time_fields uptime_ms)) (snd (time_fields uptime_ms)).
Proof.
  pose proof time_fields_range as [Hh Hm].
  unfold time_str. destruct (time_fields uptime_ms) as [h m].
  simpl in *. apply PrintfFacts.snprintf_small; lia.
Qed.

Lemma time_str_HHMM : Spec.is_HHMM (time_str uptime_ms).
Proof.
  pose proof time_fields_range as [Hh Hm].
  rewrite time_str_untruncated.
  exists (fst (time_fields uptime_ms)), (snd (time_fields uptime_ms)).
  repeat split; try lia.
  apply PrintfFacts.sprintf_small; lia.
Qed.

Lemma time_str_length : String.length (time_str uptime_ms) = 5%nat.
Proof.
  destruct time_str_HHMM as (h & m & _ & _ & ->).
  apply PrintfFacts.two_digits_colon_length.
Qed.

End Clock.

(** ** The object store *)

Module LvglFacts.

Lemma length_update o f (d : display) : length (update o f d) = length d.
Proof. destruct o; simpl; [apply length_alter | reflexivity]. Qed.

Lemma lookup_update_ne o f (d : display) j :
  o <> Some j -> update o f d !! j = d !! j.
Proof.
  destruct o as [i|]; simpl; [|reflexivity].
  intros H. apply list_lookup_alter_ne. congruence.
Qed.

Lemma lookup_update_eq f (d : display) i :
  update (Some i) f d !! i = f <$> d !! i.
Proof. simpl. apply list_lookup_alter_eq. Qed.

(** Setting a size, position, alignment or style never changes a text. *)
Lemma get_text_add_attr q o a d :
  lv_label_get_text q (update o (add_attr a) d) = lv_label_get_text q d.
Proof.
  destruct q as [j|]; [|reflexivity]. unfold lv_label_get_text.
  destruct (decide (o = Some j)) as [->|Hne].
  - rewrite lookup_update_eq. destruct (d !! j); reflexivity.
  - rewrite lookup_update_ne by assumption. reflexivity.
Qed.

Lemma get_text_set_text_ne q o t d :
  q <> o -> lv_label_get_text q (lv_label_set_text o t d) = lv_label_get_text q d.
Proof.
  destruct q as [j|]; [|reflexivity]. intros Hne.
  unfold lv_label_get_text, lv_label_set_text.
  rewrite lookup_update_ne by congruence. reflexivity.
Qed.

Lemma get_text_set_text_eq o t d :
  is_label o d -> lv_label_get_text o (lv_label_set_text o t d) = Some t.
Proof.
  destruct o as [i|]; unfold is_label, lv_label_get_text, lv_label_set_text.
  - rewrite lookup_update_eq. destruct (d !! i) as [ob|]; simpl.
    + unfold put_text. destruct (obj_text ob); simpl; [reflexivity|].
      intros [x Hx]; discriminate.
    + intros [x Hx]; discriminate.
  - intros [x Hx]; discriminate.
Qed.

Lemma is_label_set_text q o t d :
  is_label q (lv_label_set_text o t d) <-> is_label q d.
Proof.
  unfold is_label. destruct (decide (q = o)) as [->|Hne].
  - destruct o as [i|]; [|reflexivity].
    unfold lv_label_get_text, lv_label_set_text. rewrite lookup_update_eq.
    destruct (d !! i) as [ob|]; simpl; [|reflexivity].
    unfold put_text. destruct (obj_text ob) eqn:E; simpl; rewrite ?E; [|reflexivity].
    split; intros _; eexists; reflexivity.
  - rewrite get_text_set_text_ne by assumption. reflexivity.
Qed.

Lemma is_label_lt i d : is_label (Some i) d -> (i < length d)%nat.
Proof.
  unfold is_label, lv_label_get_text. intros [x Hx].
  destruct (d !! i) eqn:E; [|discriminate].
  eapply lookup_lt_Some, E.
Qed.

Lemma is_label_not_null d : ~ is_label NULL d.
Proof. intros [x Hx]. discriminate. Qed.

(** Objects created later leave the texts of the earlier ones alone. *)
Lemma get_text_app_l i d l :
  (i < length d)%nat ->
  lv_label_get_text (Some i) (d ++ l) = lv_label_get_text (Some i) d.
Proof. intros H. unfold lv_label_get_text. now rewrite lookup_app_l. Qed.

Lemma get_text_app_r k d l :
  lv_label_get_text (Some (length d + k)%nat) (d ++ l) = lv_label_get_text (Some k) l.
Proof.
  unfold lv_label_get_text. rewrite lookup_app_r by lia.
  replace (length d + k - length d)%nat with k by lia. reflexivity.
Qed.

Lemma update_app_r k f (d l : display) :
  update (Some (length d + k)%nat) f (d ++ l) = d ++ update (Some k) f l.
Proof. simpl. apply alter_app_r. Qed.

(** The six symbols and the blank icon are different strings. *)
Lemma battery_glyphs_NoDup : NoDup Spec.battery_glyphs.
Proof.
  unfold Spec.battery_glyphs.
  repeat (apply NoDup_cons; split;
          [rewrite ?elem_of_cons, elem_of_nil; intros H;
           repeat (destruct H as [H|H]; [discriminate H|]); exact H|]).
  apply NoDup_nil_2.
Qed.

Lemma WIFI_ICON_not_blank : WIFI_ICON <> NO_WIFI_ICON.
Proof. discriminate. Qed.

End LvglFacts.

(** ** The two classifications *)

Module ClassifyFacts.
Import Spec Built.

(** The chain of strict comparisons of the three battery refreshes is the
    table of the specification. *)
Lemma classify_chain x :
  (if 80 <? x then LV_SYMBOL_BATTERY_FULL
   else if 60 <? x then LV_SYMBOL_BATTERY_3
   else if 40 <? x then LV_SYMBOL_BATTERY_2
   else if 20 <? x then LV_SYMBOL_BATTERY_1
   else LV_SYMBOL_BATTERY_EMPTY) = classifyBattery x.
Proof.
  unfold classifyBattery.
  destruct (Z.ltb_spec 80 x); [reflexivity|].
  destruct (Z.ltb_spec 60 x), (Z.leb_spec 61 x), (Z.leb_spec x 80);
    try lia; simpl; try reflexivity.
  destruct (Z.ltb_spec 40 x), (Z.leb_spec 41 x), (Z.leb_spec x 60);
    try lia; simpl; try reflexivity.
  destruct (Z.ltb_spec 20 x), (Z.leb_spec 21 x), (Z.leb_spec x 40);
    try lia; simpl; reflexivity.
Qed.

Lemma classifyBattery_row p : battery_row p (classifyBattery p).
Proof.
  rewrite <- classify_chain.
  destruct (Z.ltb_spec 80 p); [now apply row_full|].
  destruct (Z.ltb_spec 60 p); [apply row_tier3; lia|].
  destruct (Z.ltb_spec 40 p); [apply row_tier2; lia|].
  destruct (Z.ltb_spec 20 p); [apply row_tier1; lia|].
  apply row_empty; lia.
Qed.

Lemma battery_row_functional p g g' :
  battery_row p g -> battery_row p g' -> g = g'.
Proof. intros H H'. inversion H; inversion H'; subst; solve [reflexivity | lia]. Qed.

Lemma classifyBattery_glyph p : classifyBattery p ∈ battery_glyphs.
Proof.
  unfold classifyBattery, battery_glyphs.
  repeat match goal with |- context [if ?b then _ else _] => destruct b end;
    rewrite !elem_of_cons; tauto.
Qed.

Lemma battery_contract_classify p : battery_contract p (Some (classifyBattery p)).
Proof.
  exists (classifyBattery p). repeat split.
  - apply classifyBattery_row.
  - apply classifyBattery_glyph.
  - intros g' Hg'. eapply battery_row_functional; [exact Hg'|apply classifyBattery_row].
Qed.

(** A reading above one hundred lands in the same row as one hundred. *)
Lemma classifyBattery_clamp p : classifyBattery (clamp p) = classifyBattery p.
Proof.
  unfold clamp. rewrite <- !classify_chain.
  repeat match goal with |- context [?a <? ?b] => destruct (Z.ltb_spec a b) end;
    solve [reflexivity | lia].
Qed.

Lemma clamp_min p : 0 <= p -> clamp p = Z.min p 100.
Proof. unfold clamp. lia. Qed.

Lemma clamp_range p : 0 <= clamp p <= 100.
Proof. unfold clamp. lia. Qed.

Lemma shown_battery_clamp e p :
  0 <= p <= 255 ->
  shown_battery (set_battery (clamp p) e) = shown_battery (set_battery p e).
Proof.
  intros Hp. unfold shown_battery, set_battery. simpl.
  pose proof (clamp_range p).
  rewrite !CIntFacts.to_uint8_id by lia.
  apply classifyBattery_clamp.
Qed.

Lemma connection_contract_classify usb ble :
  connection_contract usb ble (Some (classifyConnection usb ble)).
Proof.
  unfold connection_contract, classifyConnection.
  destruct usb, ble; simpl; (split; split; intros H; first [reflexivity | discriminate H]).
Qed.

End ClassifyFacts.

(** ** Creating objects behind a prefix, and the invariant of the handles *)

Module StoreFacts.
Import Built.

Lemma create_obj_base p (d : display) :
  lv_obj_create p d = (Some (length d + 0)%nat, d ++ [mk_obj p None []]).
Proof. unfold lv_obj_create. now rewrite Nat.add_0_r. Qed.

Lemma create_obj_app p (d l : display) :
  lv_obj_create p (d ++ l) =
  (Some (length d + length l)%nat, d ++ (l ++ [mk_obj p None []])).
Proof. unfold lv_obj_create. now rewrite length_app, app_assoc. Qed.

Lemma create_label_app p (d l : display) :
  lv_label_create p (d ++ l) =
  (Some (length d + length l)%nat, d ++ (l ++ [mk_obj p (Some "Text") []])).
Proof. unfold lv_label_create. now rewrite length_app, app_assoc. Qed.

Lemma widget_inv_null d : widget_inv NULL NULL NULL NULL d.
Proof. split; [left; repeat split | intros H; now destruct H]. Qed.

(** With one handle set, all four are labels and pairwise different. *)
Lemma handles_ok_distinct ci tl dl bi d :
  handles_ok ci tl dl bi d ->
  ci <> NULL \/ tl <> NULL \/ dl <> NULL \/ bi <> NULL ->
  is_label ci d /\ is_label tl d /\ is_label dl d /\ is_label bi d /\
  ci <> tl /\ ci <> dl /\ ci <> bi /\ tl <> dl /\ tl <> bi /\ dl <> bi.
Proof.
  intros [(-> & -> & -> & ->)|H] Hnn; [|exact H].
  exfalso. destruct Hnn as [H|[H|[H|H]]]; now apply H.
Qed.

(** Writing a text into any object but the date label keeps the
    invariant. *)
Lemma widget_inv_set_text ci tl dl bi d o t :
  widget_inv ci tl dl bi d -> o <> dl ->
  widget_inv ci tl dl bi (lv_label_set_text o t d).
Proof.
  intros [Hok Hdate] Hne. split.
  - destruct Hok as [Hnull|H]; [left; exact Hnull|right].
    rewrite !LvglFacts.is_label_set_text. exact H.
  - intros Hdl. rewrite LvglFacts.get_text_set_text_ne by congruence. auto.
Qed.

(** Four labels among the objects appended to a store. *)
Lemma widget_inv_appended (d0 l : display) a b c t :
  is_label (Some a) l -> is_label (Some b) l ->
  is_label (Some c) l -> is_label (Some t) l ->
  a <> b -> a <> c -> a <> t -> b <> c -> b <> t -> c <> t ->
  lv_label_get_text (Some b) l = Some Spec.dateText ->
  widget_inv (Some (length d0 + a)%nat) (Some (length d0 + t)%nat)
             (Some (length d0 + b)%nat) (Some (length d0 + c)%nat) (d0 ++ l).
Proof.
  intros Ha Hb Hc Ht ? ? ? ? ? ? Hdate. split.
  - right. unfold is_label. rewrite !LvglFacts.get_text_app_r.
    repeat split; try assumption; intros [= E]; lia.
  - intros _. now rewrite LvglFacts.get_text_app_r.
Qed.

End StoreFacts.

Ltac lv_unfold :=
  unfold lv_obj_set_size, lv_obj_set_pos, lv_obj_align, lv_obj_set_style_bg_color,
    lv_obj_set_style_bg_opa, lv_obj_set_style_border_width, lv_obj_set_style_pad_all,
    lv_obj_set_style_text_color, lv_obj_set_style_text_font, lv_obj_add_style,
    lv_label_set_text, lv_style_set_text_font, lv_style_init.

(** One step of running an initialisation symbolically: the store is kept
    in the form [d0 ++ l] with [l] explicit. *)
Ltac lv_step :=
  rewrite ?LvglFacts.update_app_r;
  cbn [update alter list_alter length app Nat.add];
  unfold add_attr, put_text; cbn [obj_parent obj_text obj_attrs];
  rewrite ?StoreFacts.create_obj_app, ?StoreFacts.create_label_app;
  cbn [length app Nat.add]; cbv beta iota.

(** ** Variant 1 *)

Module SingletonFacts.
Import Singleton SingletonRun Built.

Ltac world_cbn :=
  cbn [connection_icon time_label date_label battery_icon is_connected
       time_update_work lv set_lv set_connection_icon set_time_label
       set_date_label set_battery_icon set_is_connected set_time_update_work].

Lemma update_connection_icon_eq e s :
  update_connection_icon e s =
  match connection_icon s with
  | None => s
  | Some _ =>
      set_is_connected
        (zmk_usb_is_powered e || zmk_ble_active_profile_is_connected e)
        (set_lv (lv_label_set_text (connection_icon s) (shown_connection e) (lv s)) s)
  end.
Proof.
  unfold update_connection_icon, shown_connection, Spec.classifyConnection.
  destruct (connection_icon s); [|reflexivity].
  destruct (zmk_usb_is_powered e), (zmk_ble_active_profile_is_connected e);
    reflexivity.
Qed.

Lemma update_battery_icon_eq e s :
  update_battery_icon e s =
  match battery_icon s with
  | None => s
  | Some _ => set_lv (lv_label_set_text (battery_icon s) (shown_battery e) (lv s)) s
  end.
Proof.
  unfold update_battery_icon, shown_battery.
  destruct (battery_icon s); [|reflexivity].
  rewrite <- ClassifyFacts.classify_chain. cbv zeta.
  repeat match goal with |- context [if ?b then _ else _] => destruct b end;
    reflexivity.
Qed.

(** Initialisation in closed form. *)
Lemma init_closed e parent s :
  zmk_widget_status_init e parent s =
  (0, let n := length (lv s) in
      mk_world (Some (n + 1)%nat) (Some (n + 4)%nat) (Some (n + 2)%nat)
               (Some (n + 3)%nat)
               (zmk_usb_is_powered e || zmk_ble_active_profile_is_connected e)
               (mk_work (Some time_update_work_handler_fn) (Some (K_SECONDS 1)))
               (lv_obj_set_style_bg_color parent lv_color_black LV_PART_MAIN (lv s)
                ++ singleton_objects e parent n)).
Proof.
  destruct s as [ci tl dl bi ic w d].
  unfold zmk_widget_status_init. cbv zeta. world_cbn.
  assert (Hlen : length (lv_obj_set_style_bg_color parent lv_color_black
                           LV_PART_MAIN d) = length d)
    by apply LvglFacts.length_update.
  set (d0 := lv_obj_set_style_bg_color parent lv_color_black LV_PART_MAIN d) in *.
  lv_unfold.
  rewrite StoreFacts.create_obj_base. cbv beta iota.
  do 5 (world_cbn; lv_step).
  rewrite update_connection_icon_eq. lv_unfold. world_cbn; lv_step.
  unfold update_date_display. lv_unfold. world_cbn; lv_step.
  rewrite update_battery_icon_eq. lv_unfold. world_cbn; lv_step.
  unfold update_time_display. lv_unfold. world_cbn; lv_step.
  unfold k_work_init_delayable, k_work_schedule. world_cbn.
  cbn [work_timeout work_handler].
  rewrite Nat.add_0_r, Hlen. reflexivity.
Qed.

Abbreviation inv := singleton_inv.

Lemma inv_init e parent s : inv (snd (zmk_widget_status_init e parent s)).
Proof.
  rewrite init_closed. unfold singleton_inv. cbn [snd]. cbv zeta. world_cbn.
  rewrite <- (LvglFacts.length_update parent
                (add_attr (attr_local_style (bg_color lv_color_black) LV_PART_MAIN))
                (lv s)).
  apply StoreFacts.widget_inv_appended;
    solve [ eexists; reflexivity | lia | reflexivity ].
Qed.

(** After initialisation the texts are the classified query results. *)
Lemma init_texts e parent s :
  let s' := snd (zmk_widget_status_init e parent s) in
  connection_text s' = Some (shown_connection e) /\
  clock_text s' = Some (time_str (k_uptime_get e)) /\
  date_text s' = Some Spec.dateText /\
  battery_text s' = Some (shown_battery e).
Proof.
  cbv zeta. rewrite init_closed.
  unfold connection_text, clock_text, date_text, battery_text.
  cbn [snd]. cbv zeta. world_cbn.
  rewrite <- (LvglFacts.length_update parent
                (add_attr (attr_local_style (bg_color lv_color_black) LV_PART_MAIN))
                (lv s)).
  unfold lv_obj_set_style_bg_color.
  rewrite !LvglFacts.get_text_app_r. repeat split; reflexivity.
Qed.

(** A refresh that writes into one of the other three labels. *)
Lemma inv_write s o t :
  inv s -> o <> date_label s ->
  inv (set_lv (lv_label_set_text o t (lv s)) s).
Proof. unfold singleton_inv. world_cbn. apply StoreFacts.widget_inv_set_text. Qed.

Lemma inv_distinct s :
  inv s ->
  connection_icon s <> NULL \/ time_label s <> NULL \/
  date_label s <> NULL \/ battery_icon s <> NULL ->
  is_label (connection_icon s) (lv s) /\ is_label (time_label s) (lv s) /\
  is_label (date_label s) (lv s) /\ is_label (battery_icon s) (lv s) /\
  connection_icon s <> time_label s /\ connection_icon s <> date_label s /\
  connection_icon s <> battery_icon s /\ time_label s <> date_label s /\
  time_label s <> battery_icon s /\ date_label s <> battery_icon s.
Proof. intros [H _]. now apply StoreFacts.handles_ok_distinct. Qed.

Lemma inv_update_connection_icon e s : inv s -> inv (update_connection_icon e s).
Proof.
  intros H. rewrite update_connection_icon_eq.
  destruct (connection_icon s) as [i|] eqn:E; [|exact H].
  destruct (inv_distinct s H) as (_ & _ & _ & _ & _ & Hne & _);
    [left; congruence|].
  rewrite <- E. apply (inv_write s _ _ H Hne).
Qed.

Lemma inv_update_battery_icon e s : inv s -> inv (update_battery_icon e s).
Proof.
  intros H. rewrite update_battery_icon_eq.
  destruct (battery_icon s) as [i|] eqn:E; [|exact H].
  destruct (inv_distinct s H) as (_ & _ & _ & _ & _ & _ & _ & _ & _ & Hne);
    [right; right; right; congruence|].
  rewrite <- E. apply (inv_write s _ _ H). congruence.
Qed.

Lemma inv_update_time_display e s : inv s -> inv (update_time_display e s).
Proof.
  intros H. unfold update_time_display.
  destruct (time_label s) as [i|] eqn:E; [|exact H].
  destruct (inv_distinct s H) as (_ & _ & _ & _ & _ & _ & _ & Hne & _);
    [right; left; congruence|].
  cbv zeta. rewrite <- E. apply (inv_write s _ _ H Hne).
Qed.

Lemma inv_work w s : inv s -> inv (set_time_update_work w s).
Proof. exact (fun H => H). Qed.

Lemma inv_step e s e' s' :
  inv s -> work_queue_step e s = Some (e', s') -> inv s'.
Proof.
  intros H. unfold work_queue_step.
  destruct (work_timeout (time_update_work s)) as [delay|]; [|discriminate].
  destruct (work_handler (time_update_work s)) as [[]|]; [|discriminate].
  intros [= <- <-]. unfold run_handler, time_update_work_handler.
  apply inv_work, inv_update_time_display, inv_work, H.
Qed.

Lemma inv_reachable s : reachable s -> inv s.
Proof.
  induction 1 as [d|e parent s _ _|e s _ IH|e s _ IH|e s e' s' _ IH Hstep].
  - apply StoreFacts.widget_inv_null.
  - apply inv_init.
  - apply inv_update_connection_icon, IH.
  - apply inv_update_battery_icon, IH.
  - eapply inv_step; eassumption.
Qed.

(** *** Frame of the battery refresh *)

Lemma update_battery_icon_fields e s :
  let s' := update_battery_icon e s in
  connection_icon s' = connection_icon s /\ time_label s' = time_label s /\
  date_label s' = date_label s /\ battery_icon s' = battery_icon s /\
  is_connected s' = is_connected s /\ time_update_work s' = time_update_work s.
Proof.
  cbv zeta. rewrite update_battery_icon_eq.
  destruct (battery_icon s) eqn:E; world_cbn; rewrite ?E; repeat split; reflexivity.
Qed.

Lemma update_battery_icon_objects e s j :
  battery_icon s <> Some j -> lv (update_battery_icon e s) !! j = lv s !! j.
Proof.
  intros Hne. rewrite update_battery_icon_eq.
  destruct (battery_icon s) as [i|] eqn:E; [|reflexivity].
  world_cbn. apply LvglFacts.lookup_update_ne. congruence.
Qed.

Lemma update_battery_icon_text e s :
  is_label (battery_icon s) (lv s) ->
  battery_text (update_battery_icon e s) = Some (shown_battery e).
Proof.
  intros Hl. unfold battery_text. rewrite update_battery_icon_eq.
  destruct (battery_icon s) as [i|] eqn:E.
  - world_cbn. rewrite E. now apply LvglFacts.get_text_set_text_eq.
  - now apply LvglFacts.is_label_not_null in Hl.
Qed.

Lemma update_battery_icon_others e s :
  inv s ->
  let s' := update_battery_icon e s in
  connection_text s' = connection_text s /\ clock_text s' = clock_text s /\
  date_text s' = date_text s.
Proof.
  intros H. cbv zeta. unfold connection_text, clock_text, date_text.
  rewrite update_battery_icon_eq.
  destruct (battery_icon s) as [i|] eqn:E; [|repeat split; reflexivity].
  destruct (inv_distinct s H) as (_ & _ & _ & _ & _ & _ & H1 & _ & H2 & H3);
    [right; right; right; congruence|].
  world_cbn. rewrite <- E.
  rewrite !LvglFacts.get_text_set_text_ne by congruence.
  repeat split; reflexivity.
Qed.

Lemma update_connection_icon_text e s :
  is_label (connection_icon s) (lv s) ->
  connection_text (update_connection_icon e s) = Some (shown_connection e) /\
  is_connected (update_connection_icon e s) =
    zmk_usb_is_powered e || zmk_ble_active_profile_is_connected e.
Proof.
  intros Hl. unfold connection_text. rewrite update_connection_icon_eq.
  destruct (connection_icon s) as [i|] eqn:E.
  - world_cbn. rewrite E. split; [|reflexivity].
    now apply LvglFacts.get_text_set_text_eq.
  - now apply LvglFacts.is_label_not_null in Hl.
Qed.

Lemma update_time_display_text e s :
  is_label (time_label s) (lv s) ->
  clock_text (update_time_display e s) = Some (time_str (k_uptime_get e)).
Proof.
  intros Hl. unfold clock_text, update_time_display.
  destruct (time_label s) as [i|] eqn:E.
  - cbv zeta. world_cbn. rewrite E. now apply LvglFacts.get_text_set_text_eq.
  - now apply LvglFacts.is_label_not_null in Hl.
Qed.

Lemma update_date_display_text s :
  is_label (date_label s) (lv s) ->
  date_text (update_date_display s) = Some Spec.dateText.
Proof.
  intros Hl. unfold date_text, update_date_display.
  destruct (date_label s) as [i|] eqn:E.
  - world_cbn. rewrite E. now apply LvglFacts.get_text_set_text_eq.
  - now apply LvglFacts.is_label_not_null in Hl.
Qed.

(** *** The timer *)

Abbreviation ticking := singleton_ticking.

Lemma ticking_init e parent s : ticking (snd (zmk_widget_status_init e parent s)).
Proof.
  split; [apply inv_init|].
  rewrite init_closed. cbn [snd]. cbv zeta. unfold armed. world_cbn.
  split; [discriminate|reflexivity].
Qed.

(** One expiry: the handler runs one second later, shows that instant and
    leaves the timer armed again. *)
Lemma ticking_step e s :
  ticking s ->
  exists s',
    work_queue_step e s = Some (set_uptime (k_uptime_get e + K_SECONDS 1) e, s') /\
    ticking s' /\
    clock_text s' = Some (time_str (k_uptime_get e + K_SECONDS 1)).
Proof.
  intros (Hinv & Hlabel & Harmed).
  unfold armed in Harmed. unfold work_queue_step. rewrite Harmed.
  cbn [work_timeout work_handler run_handler].
  eexists. split; [reflexivity|].
  set (e' := set_uptime (k_uptime_get e + K_SECONDS 1) e).
  set (s1 := set_time_update_work _ s).
  assert (Hinv1 : inv s1) by exact Hinv.
  assert (Hlabel1 : is_label (time_label s1) (lv s1)).
  { destruct (inv_distinct s Hinv) as (_ & H & _); [right; left; exact Hlabel|exact H]. }
  unfold time_update_work_handler. cbv zeta.
  pose proof (inv_update_time_display e' s1 Hinv1) as Hinv2.
  pose proof (update_time_display_text e' s1 Hlabel1) as Htext.
  assert (Hfields : time_label (update_time_display e' s1) = time_label s
                    /\ time_update_work (update_time_display e' s1)
                       = mk_work (Some time_update_work_handler_fn) None).
  { unfold update_time_display. destruct (time_label s1) eqn:E; split; reflexivity. }
  destruct Hfields as [Htl Hw].
  refine (conj (conj _ (conj _ _)) _).
  - exact Hinv2.
  - world_cbn. rewrite Htl. exact Hlabel.
  - unfold armed. world_cbn. rewrite Hw. reflexivity.
  - exact Htext.
Qed.

Lemma set_uptime_twice a b e : set_uptime a (set_uptime b e) = set_uptime a e.
Proof. reflexivity. Qed.

Lemma ticking_run n : forall e s,
  ticking s ->
  exists s',
    work_queue_run (S n) e s
    = Some (set_uptime (k_uptime_get e + Z.of_nat (S n) * K_SECONDS 1) e, s') /\
    ticking s' /\
    clock_text s' = Some (time_str (k_uptime_get e + Z.of_nat (S n) * K_SECONDS 1)).
Proof.
  induction n as [|n IH]; intros e s Ht.
  - destruct (ticking_step e s Ht) as (s' & Hstep & Ht' & Htext).
    exists s'. cbn [work_queue_run]. rewrite Hstep.
    change (Z.of_nat 1 * K_SECONDS 1) with (K_SECONDS 1). auto.
  - destruct (ticking_step e s Ht) as (s1 & Hstep & Ht1 & _).
    destruct (IH (set_uptime (k_uptime_get e + K_SECONDS 1) e) s1 Ht1)
      as (s' & Hrun & Ht' & Htext).
    exists s'. change (work_queue_run (S (S n)) e s)
      with (match work_queue_step e s with
            | Some (e', s') => work_queue_run (S n) e' s'
            | None => None
            end).
    rewrite Hstep, Hrun. rewrite set_uptime_twice.
    cbn [k_uptime_get set_uptime] in *.
    replace (k_uptime_get e + Z.of_nat (S (S n)) * K_SECONDS 1)
      with (k_uptime_get e + K_SECONDS 1 + Z.of_nat (S n) * K_SECONDS 1) by lia.
    auto.
Qed.

End SingletonFacts.

(** ** Variant 2 *)

Module InstanceFacts.
Import Instance InstanceRun Built.

Lemma inst_update_connection_icon_eq e icon d :
  update_connection_icon e icon d =
  match icon with
  | None => d
  | Some _ => lv_label_set_text icon (shown_connection e) d
  end.
Proof.
  unfold update_connection_icon, shown_connection, Spec.classifyConnection.
  destruct icon; [|reflexivity].
  destruct (zmk_usb_is_powered e || zmk_ble_active_profile_is_connected e);
    reflexivity.
Qed.

Lemma inst_update_battery_icon_eq e icon d :
  update_battery_icon e icon d =
  match icon with
  | None => d
  | Some _ => lv_label_set_text icon (shown_battery e) d
  end.
Proof.
  unfold update_battery_icon, shown_battery. destruct icon; [|reflexivity].
  rewrite <- ClassifyFacts.classify_chain. cbv zeta.
  repeat match goal with |- context [if ?b then _ else _] => destruct b end;
    reflexivity.
Qed.

Lemma inst_update_connection_icon_text e icon d :
  is_label icon d ->
  lv_label_get_text icon (update_connection_icon e icon d) = Some (shown_connection e).
Proof.
  intros Hl. rewrite inst_update_connection_icon_eq. destruct icon.
  - now apply LvglFacts.get_text_set_text_eq.
  - now apply LvglFacts.is_label_not_null in Hl.
Qed.

Lemma inst_update_battery_icon_text e icon d :
  is_label icon d ->
  lv_label_get_text icon (update_battery_icon e icon d) = Some (shown_battery e).
Proof.
  intros Hl. rewrite inst_update_battery_icon_eq. destruct icon.
  - now apply LvglFacts.get_text_set_text_eq.
  - now apply LvglFacts.is_label_not_null in Hl.
Qed.

Lemma inst_update_time_display_text e label d :
  is_label label d ->
  lv_label_get_text label (update_time_display e label d)
  = Some (time_str (k_uptime_get e)).
Proof.
  intros Hl. unfold update_time_display. destruct label.
  - now apply LvglFacts.get_text_set_text_eq.
  - now apply LvglFacts.is_label_not_null in Hl.
Qed.

(** Initialisation in closed form: the static is not touched. *)
Lemma inst_init_closed e widget parent s :
  zmk_widget_status_init e widget parent s =
  (0, let n := length (lv s) in
      mk_widget (Some n) (Some (n + 2)%nat) (Some (n + 5)%nat)
                (Some (n + 3)%nat) (Some (n + 4)%nat),
      mk_world (time_update_work s) (lv s ++ instance_objects e parent (length (lv s)))).
Proof.
  destruct s as [w d]. unfold zmk_widget_status_init. cbv zeta. cbn [lv].
  lv_unfold.
  rewrite StoreFacts.create_obj_base. cbv beta iota.
  do 6 lv_step.
  cbn [connection_icon battery_icon time_label].
  rewrite inst_update_connection_icon_eq. lv_unfold. lv_step.
  rewrite inst_update_battery_icon_eq. lv_unfold. lv_step.
  unfold update_time_display. lv_unfold. lv_step.
  cbn [time_update_work]. rewrite Nat.add_0_r. reflexivity.
Qed.

Lemma inst_inv_write w s o t :
  instance_inv w s -> o <> date_label w ->
  instance_inv w (mk_world (time_update_work s) (lv_label_set_text o t (lv s))).
Proof.
  intros [H Hd] Hne. split; [|exact Hd]. cbn [lv].
  now apply StoreFacts.widget_inv_set_text.
Qed.

Lemma inst_inv_distinct w s :
  instance_inv w s ->
  connection_icon w <> date_label w /\ time_label w <> date_label w /\
  battery_icon w <> date_label w.
Proof.
  intros [[H _] Hd].
  destruct (StoreFacts.handles_ok_distinct _ _ _ _ _ H)
    as (_ & _ & _ & _ & _ & H1 & _ & H2 & _ & H3); [tauto|].
  repeat split; congruence.
Qed.

Lemma inst_inv_reachable w s : reachable w s -> instance_inv w s.
Proof.
  induction 1 as [e w0 parent s0 rc w s Hinit|e w s _ IH|e w s _ IH|e w s _ IH|e w s _ IH].
  - rewrite inst_init_closed in Hinit. cbv zeta in Hinit.
    injection Hinit as <- <- <-. split; [|discriminate].
    cbn [connection_icon time_label date_label battery_icon lv].
    apply StoreFacts.widget_inv_appended;
      solve [ eexists; reflexivity | lia | reflexivity ].
  - destruct (inst_inv_distinct w s IH) as (H1 & _ & _).
    rewrite inst_update_connection_icon_eq.
    destruct (connection_icon w) eqn:E; [|destruct s; exact IH].
    rewrite <- E. apply inst_inv_write; [exact IH|congruence].
  - destruct (inst_inv_distinct w s IH) as (_ & _ & H1).
    rewrite inst_update_battery_icon_eq.
    destruct (battery_icon w) eqn:E; [|destruct s; exact IH].
    rewrite <- E. apply inst_inv_write; [exact IH|congruence].
  - destruct (inst_inv_distinct w s IH) as (_ & H1 & _).
    unfold update_time_display.
    destruct (time_label w) eqn:E; [|destruct s; exact IH].
    cbv zeta. rewrite <- E. apply inst_inv_write; [exact IH|congruence].
  - exact IH.
Qed.

End InstanceFacts.

(** ** Variant 3 *)

Module ScreenFacts.
Import Screen ScreenRun Built.

Ltac world_cbn :=
  cbn [connection_icon time_label date_label battery_icon state lv set_lv].

Lemma set_connection_status_eq e s :
  set_connection_status e s =
  match connection_icon (state s) with
  | None => s
  | Some _ =>
      set_lv (lv_label_set_text (connection_icon (state s)) (shown_connection e) (lv s)) s
  end.
Proof.
  unfold set_connection_status, shown_connection, Spec.classifyConnection.
  destruct (connection_icon (state s)); [|reflexivity].
  destruct (zmk_usb_is_powered e || zmk_ble_active_profile_is_connected e);
    reflexivity.
Qed.

Lemma set_battery_status_eq e s :
  set_battery_status e s =
  match battery_icon (state s) with
  | None => s
  | Some _ =>
      set_lv (lv_label_set_text (battery_icon (state s)) (shown_battery e) (lv s)) s
  end.
Proof.
  unfold set_battery_status, shown_battery.
  destruct (battery_icon (state s)); [|reflexivity].
  rewrite <- ClassifyFacts.classify_chain. cbv zeta.
  repeat match goal with |- context [if ?b then _ else _] => destruct b end;
    reflexivity.
Qed.

Lemma set_connection_status_text e s :
  is_label (connection_icon (state s)) (lv s) ->
  connection_text (set_connection_status e s) = Some (shown_connection e).
Proof.
  intros Hl. unfold connection_text. rewrite set_connection_status_eq.
  destruct (connection_icon (state s)) as [i|] eqn:E.
  - world_cbn. rewrite E. now apply LvglFacts.get_text_set_text_eq.
  - now apply LvglFacts.is_label_not_null in Hl.
Qed.

Lemma set_battery_status_text e s :
  is_label (battery_icon (state s)) (lv s) ->
  battery_text (set_battery_status e s) = Some (shown_battery e).
Proof.
  intros Hl. unfold battery_text. rewrite set_battery_status_eq.
  destruct (battery_icon (state s)) as [i|] eqn:E.
  - world_cbn. rewrite E. now apply LvglFacts.get_text_set_text_eq.
  - now apply LvglFacts.is_label_not_null in Hl.
Qed.

Lemma update_time_text e s :
  is_label (time_label (state s)) (lv s) ->
  clock_text (update_time e s) = Some (time_str (k_uptime_get e)).
Proof.
  intros Hl. unfold clock_text, update_time.
  destruct (time_label (state s)) as [i|] eqn:E.
  - cbv zeta. world_cbn. rewrite E. now apply LvglFacts.get_text_set_text_eq.
  - now apply LvglFacts.is_label_not_null in Hl.
Qed.

(** Building the screen, in closed form. *)
Lemma screen_closed cfg e s :
  zmk_display_status_screen cfg e s =
  (let n := length (lv s) in
   (Some n,
    mk_world (mk_state (Some (n + 2)%nat) (Some (n + 5)%nat)
                       (Some (n + 3)%nat) (Some (n + 4)%nat))
             (lv s ++ screen_objects cfg e n))).
Proof.
  destruct s as [st d]. unfold zmk_display_status_screen. cbv zeta. cbn [lv state].
  lv_unfold.
  rewrite StoreFacts.create_obj_base. cbv beta iota.
  do 5 (world_cbn; lv_step).
  unfold screen_objects, screen_font.
  destruct (CONFIG_LV_FONT_MONTSERRAT_48 cfg), (CONFIG_LV_FONT_MONTSERRAT_32 cfg);
    world_cbn; lv_step;
    (rewrite set_connection_status_eq; lv_unfold; world_cbn; lv_step;
     rewrite set_battery_status_eq; lv_unfold; world_cbn; lv_step;
     unfold update_time; lv_unfold; world_cbn; lv_step;
     rewrite Nat.add_0_r; reflexivity).
Qed.

Lemma scr_inv_write s o t :
  screen_inv s -> o <> date_label (state s) ->
  screen_inv (set_lv (lv_label_set_text o t (lv s)) s).
Proof. unfold screen_inv. world_cbn. apply StoreFacts.widget_inv_set_text. Qed.

Lemma scr_inv_distinct s :
  screen_inv s ->
  connection_icon (state s) <> NULL \/ time_label (state s) <> NULL \/
  date_label (state s) <> NULL \/ battery_icon (state s) <> NULL ->
  is_label (connection_icon (state s)) (lv s) /\
  is_label (time_label (state s)) (lv s) /\
  is_label (date_label (state s)) (lv s) /\
  is_label (battery_icon (state s)) (lv s) /\
  connection_icon (state s) <> time_label (state s) /\
  connection_icon (state s) <> date_label (state s) /\
  connection_icon (state s) <> battery_icon (state s) /\
  time_label (state s) <> date_label (state s) /\
  time_label (state s) <> battery_icon (state s) /\
  date_label (state s) <> battery_icon (state s).
Proof. intros [H _]. now apply StoreFacts.handles_ok_distinct. Qed.

Lemma inv_screen cfg e s : screen_inv (snd (zmk_display_status_screen cfg e s)).
Proof.
  rewrite screen_closed. cbv zeta. unfold screen_inv. cbn [snd]. world_cbn.
  apply StoreFacts.widget_inv_appended;
    solve [ eexists; reflexivity | lia | reflexivity ].
Qed.

Lemma inv_set_connection_status e s : screen_inv s -> screen_inv (set_connection_status e s).
Proof.
  intros H. rewrite set_connection_status_eq.
  destruct (connection_icon (state s)) as [i|] eqn:E; [|exact H].
  destruct (scr_inv_distinct s H) as (_ & _ & _ & _ & _ & Hne & _);
    [left; congruence|].
  rewrite <- E. apply (scr_inv_write s _ _ H Hne).
Qed.

Lemma inv_set_battery_status e s : screen_inv s -> screen_inv (set_battery_status e s).
Proof.
  intros H. rewrite set_battery_status_eq.
  destruct (battery_icon (state s)) as [i|] eqn:E; [|exact H].
  destruct (scr_inv_distinct s H) as (_ & _ & _ & _ & _ & _ & _ & _ & _ & Hne);
    [right; right; right; congruence|].
  rewrite <- E. apply (scr_inv_write s _ _ H). congruence.
Qed.

Lemma inv_update_time e s : screen_inv s -> screen_inv (update_time e s).
Proof.
  intros H. unfold update_time.
  destruct (time_label (state s)) as [i|] eqn:E; [|exact H].
  destruct (scr_inv_distinct s H) as (_ & _ & _ & _ & _ & _ & _ & Hne & _);
    [right; left; congruence|].
  cbv zeta. rewrite <- E. apply (scr_inv_write s _ _ H Hne).
Qed.

Lemma scr_inv_reachable s : reachable s -> screen_inv s.
Proof.
  induction 1 as [d|cfg e s _ _|e s _ IH|e s _ IH|e s _ IH].
  - apply StoreFacts.widget_inv_null.
  - apply inv_screen.
  - apply inv_set_connection_status, IH.
  - apply inv_set_battery_status, IH.
  - apply inv_update_time, IH.
Qed.

Lemma set_battery_status_others e s :
  screen_inv s ->
  let s' := set_battery_status e s in
  state s' = state s /\
  connection_text s' = connection_text s /\ clock_text s' = clock_text s /\
  date_text s' = date_text s.
Proof.
  intros H. cbv zeta. unfold connection_text, clock_text, date_text.
  rewrite set_battery_status_eq.
  destruct (battery_icon (state s)) as [i|] eqn:E; [|repeat split; reflexivity].
  destruct (scr_inv_distinct s H) as (_ & _ & _ & _ & _ & _ & H1 & _ & H2 & H3);
    [right; right; right; congruence|].
  world_cbn. rewrite <- E.
  rewrite !LvglFacts.get_text_set_text_ne by congruence.
  repeat split; reflexivity.
Qed.

Lemma set_battery_status_objects e s j :
  battery_icon (state s) <> Some j -> lv (set_battery_status e s) !! j = lv s !! j.
Proof.
  intros Hne. rewrite set_battery_status_eq.
  destruct (battery_icon (state s)) as [i|] eqn:E; [|reflexivity].
  world_cbn. apply LvglFacts.lookup_update_ne. congruence.
Qed.

End ScreenFacts.

(** * The claims *)

(** C1. The battery refresh of every variant is the five-bucket step
    function with strict comparisons: for a reading [p] (a [uint8_t]) the
    battery label shows the glyph of the one table row that holds [p]
    (above 80 full, 61-80 tier 3, 41-60 tier 2, 21-40 tier 1, at most 20
    empty), one of the five glyphs and no other. *)
Theorem classifyBattery_table (e : env) (p : Z) :
  0 <= p <= 255 ->
  zmk_battery_state_of_charge e = p ->
  (forall s, is_label (Singleton.battery_icon s) (Singleton.lv s) ->
     battery_contract p (SingletonRun.battery_text (Singleton.update_battery_icon e s))) /\
  (forall icon d, is_label icon d ->
     battery_contract p (lv_label_get_text icon (Instance.update_battery_icon e icon d))) /\
  (forall s, is_label (Screen.battery_icon (Screen.state s)) (Screen.lv s) ->
     battery_contract p (ScreenRun.battery_text (Screen.set_battery_status e s))) /\
  NoDup Spec.battery_glyphs.
Proof.
  intros Hp He.
  assert (Hshown : shown_battery e = Spec.classifyBattery p).
  { unfold shown_battery. now rewrite He, CIntFacts.to_uint8_id. }
  repeat split.
  - intros s Hl. rewrite SingletonFacts.update_battery_icon_text, Hshown by exact Hl.
    apply ClassifyFacts.battery_contract_classify.
  - intros icon d Hl. rewrite InstanceFacts.inst_update_battery_icon_text, Hshown by exact Hl.
    apply ClassifyFacts.battery_contract_classify.
  - intros s Hl. rewrite ScreenFacts.set_battery_status_text, Hshown by exact Hl.
    apply ClassifyFacts.battery_contract_classify.
  - apply LvglFacts.battery_glyphs_NoDup.
Qed.

(** The boundary readings on the initialised singleton widget: each shows
    the glyph the table gives it. *)
Lemma classifyBattery_table_witness :
  Forall (fun pg =>
            SingletonRun.battery_text
              (Singleton.update_battery_icon (set_battery (fst pg) env0) singleton0)
            = Some (snd pg))
         boundary_table.
Proof.
  unfold boundary_table.
  repeat (apply Forall_cons; split;
    [ cbn [fst snd];
      match goal with
      | |- SingletonRun.battery_text
             (Singleton.update_battery_icon (set_battery ?p env0) singleton0) = _ =>
          destruct (proj1 (classifyBattery_table (set_battery p env0) p
                             ltac:(lia) eq_refl) singleton0
                      ltac:(vm_compute; eexists; reflexivity))
            as (g & Hshown & _ & _ & Huniq);
          rewrite Hshown; f_equal; symmetry; apply Huniq; constructor; lia
      end | ]).
  apply Forall_nil_2.
Defined.

(** C2. For every elapsed time of at least zero milliseconds the clock
    text is computed as the specification says, with flooring division:
    totalSeconds = (elapsedMillis / 1000) mod 86400,
    hours = (totalSeconds / 3600) mod 24, minutes = (totalSeconds mod 3600) / 60,
    both zero-padded to two digits; so 0 gives 00:00, 3661000 gives 01:01,
    86400000 wraps to 00:00 and 86399999 gives 23:59. *)
Theorem formatClock_agrees (elapsedMillis : Z) :
  0 <= elapsedMillis ->
  time_fields elapsedMillis
  = ((((elapsedMillis / 1000) mod 86400) / 3600) mod 24,
     (((elapsedMillis / 1000) mod 86400) mod 3600) / 60) /\
  time_str elapsedMillis = Spec.formatClock elapsedMillis /\
  time_str 0 = "00:00" /\
  time_str 3661000 = "01:01" /\
  time_str 86400000 = "00:00" /\
  time_str 86399999 = "23:59".
Proof.
  intros H. split; [now apply time_fields_floor|].
  split; [now apply time_str_formatClock|].
  repeat split; vm_compute; reflexivity.
Qed.

Lemma formatClock_agrees_witness :
  time_fields 3661000 = (1, 1) /\ time_str 3661000 = Spec.formatClock 3661000.
Proof.
  destruct (formatClock_agrees 3661000 ltac:(lia)) as (Hf & Hs & _).
  split; [rewrite Hf; reflexivity | exact Hs].
Defined.

(** C3. In every variant the connection refresh shows the connected glyph
    if and only if USB is powered or the Bluetooth profile is connected, and
    the blank glyph otherwise; the singleton variant records the same
    disjunction in [is_connected]. *)
Theorem classifyConnection_iff (e : env) (s1 : Singleton.world) (icon : ptr)
    (d : display) (s3 : Screen.world) :
  is_label (Singleton.connection_icon s1) (Singleton.lv s1) ->
  is_label icon d ->
  is_label (Screen.connection_icon (Screen.state s3)) (Screen.lv s3) ->
  let usb := zmk_usb_is_powered e in
  let ble := zmk_ble_active_profile_is_connected e in
  (connection_contract usb ble
     (SingletonRun.connection_text (Singleton.update_connection_icon e s1)) /\
   Singleton.is_connected (Singleton.update_connection_icon e s1) = usb || ble) /\
  connection_contract usb ble
    (lv_label_get_text icon (Instance.update_connection_icon e icon d)) /\
  connection_contract usb ble
    (ScreenRun.connection_text (Screen.set_connection_status e s3)).
Proof.
  intros H1 H2 H3 usb ble.
  destruct (SingletonFacts.update_connection_icon_text e s1 H1) as [Ht Hc].
  rewrite Ht, Hc, (InstanceFacts.inst_update_connection_icon_text e icon d H2),
    (ScreenFacts.set_connection_status_text e s3 H3).
  repeat split; try apply ClassifyFacts.connection_contract_classify.
Qed.

(** The four combinations on the three initialised variants. *)
Lemma classifyConnection_iff_witness :
  Forall (fun ub : bool * bool =>
            let e := mk_env (fst ub) (snd ub) 45 0 in
            let shown := Some (if fst ub || snd ub then WIFI_ICON else NO_WIFI_ICON) in
            SingletonRun.connection_text (Singleton.update_connection_icon e singleton0)
            = shown /\
            lv_label_get_text (Instance.connection_icon (fst instance0))
              (Instance.update_connection_icon e (Instance.connection_icon (fst instance0))
                 (Instance.lv (snd instance0))) = shown /\
            ScreenRun.connection_text (Screen.set_connection_status e screen0) = shown)
         [(false, false); (false, true); (true, false); (true, true)].
Proof.
  repeat (apply Forall_cons; split;
    [ cbn [fst snd orb]; cbv zeta;
      match goal with
      | |- SingletonRun.connection_text (Singleton.update_connection_icon ?e _) = _ /\ _ =>
          pose proof (classifyConnection_iff e singleton0
                        (Instance.connection_icon (fst instance0))
                        (Instance.lv (snd instance0)) screen0
                        ltac:(vm_compute; eexists; reflexivity)
                        ltac:(vm_compute; eexists; reflexivity)
                        ltac:(vm_compute; eexists; reflexivity)) as H;
          cbv zeta in H; unfold connection_contract in H;
          cbn [zmk_usb_is_powered zmk_ble_active_profile_is_connected orb] in H;
          destruct H as ((([_ Ha] & [_ Ha']) & _) & ([_ Hb] & [_ Hb']) & ([_ Hc] & [_ Hc']));
          first [ split; [apply Ha | split; [apply Hb | apply Hc]]; reflexivity
                | split; [apply Ha' | split; [apply Hb' | apply Hc']]; reflexivity ]
      end | ]).
  apply Forall_nil_2.
Defined.

(** C4. A reading is classified as its clamp to [0,100] would be: for
    every reading [p] of the query's range 0..255, each battery refresh does
    on [p] exactly what it does on min(p, 100). *)
Theorem battery_reading_clamped (e : env) (p : Z) :
  0 <= p <= 255 ->
  Spec.clamp p = Z.min p 100 /\
  (forall s, Singleton.update_battery_icon (set_battery p e) s
             = Singleton.update_battery_icon (set_battery (Z.min p 100) e) s) /\
  (forall icon d, Instance.update_battery_icon (set_battery p e) icon d
                  = Instance.update_battery_icon (set_battery (Z.min p 100) e) icon d) /\
  (forall s, Screen.set_battery_status (set_battery p e) s
             = Screen.set_battery_status (set_battery (Z.min p 100) e) s).
Proof.
  intros Hp.
  assert (Hc : Spec.clamp p = Z.min p 100) by (apply ClassifyFacts.clamp_min; lia).
  pose proof (ClassifyFacts.shown_battery_clamp e p Hp) as Hs. rewrite Hc in Hs.
  split; [exact Hc|]. repeat split.
  - intros s. rewrite !SingletonFacts.update_battery_icon_eq, Hs. reflexivity.
  - intros icon d. rewrite !InstanceFacts.inst_update_battery_icon_eq, Hs. reflexivity.
  - intros s. rewrite !ScreenFacts.set_battery_status_eq, Hs. reflexivity.
Qed.

(** A reading of 200 shows what 100 shows: the full glyph. *)
Lemma battery_reading_clamped_witness :
  SingletonRun.battery_text
    (Singleton.update_battery_icon (set_battery 200 env0) singleton0)
  = Some LV_SYMBOL_BATTERY_FULL.
Proof.
  rewrite (proj1 (proj2 (battery_reading_clamped env0 200 ltac:(lia))) singleton0).
  vm_compute. reflexivity.
Defined.

(** C5. After a time refresh at a non-negative uptime the clock label of
    every variant holds exactly five characters in HH:MM form, HH in 00..23
    and MM in 00..59, and they are all of what the format produces: the
    six-byte buffer cuts nothing. *)
Theorem clockText_HHMM (e : env) (s1 : Singleton.world) (label : ptr)
    (d : display) (s3 : Screen.world) :
  0 <= k_uptime_get e ->
  is_label (Singleton.time_label s1) (Singleton.lv s1) ->
  is_label label d ->
  is_label (Screen.time_label (Screen.state s3)) (Screen.lv s3) ->
  clock_contract (k_uptime_get e)
    (SingletonRun.clock_text (Singleton.update_time_display e s1)) /\
  clock_contract (k_uptime_get e)
    (lv_label_get_text label (Instance.update_time_display e label d)) /\
  clock_contract (k_uptime_get e)
    (ScreenRun.clock_text (Screen.update_time e s3)).
Proof.
  intros Hu H1 H2 H3.
  rewrite (SingletonFacts.update_time_display_text e s1 H1),
    (InstanceFacts.inst_update_time_display_text e label d H2),
    (ScreenFacts.update_time_text e s3 H3).
  assert (Hc : clock_contract (k_uptime_get e) (Some (time_str (k_uptime_get e)))).
  { exists (time_str (k_uptime_get e)).
    pose proof (time_str_length _ Hu) as Hlen.
    repeat split.
    - exact Hlen.
    - now apply time_str_HHMM.
    - rewrite Hlen. lia.
    - now apply time_str_untruncated. }
  repeat split; exact Hc.
Qed.

(** One millisecond before the day wraps. *)
Lemma clockText_HHMM_witness :
  clock_contract 86399999
    (SingletonRun.clock_text
       (Singleton.update_time_display (set_uptime 86399999 env0) singleton0)).
Proof.
  exact (proj1 (clockText_HHMM (set_uptime 86399999 env0) singleton0
                  (Instance.time_label (fst instance0)) (Instance.lv (snd instance0))
                  screen0 ltac:(vm_compute; discriminate)
                  ltac:(vm_compute; eexists; reflexivity)
                  ltac:(vm_compute; eexists; reflexivity)
                  ltac:(vm_compute; eexists; reflexivity))).
Defined.

(** ** Where initialisation mounts what it creates *)

Module MountFacts.

Lemma get_parent_app_r k (d l : display) :
  lv_obj_get_parent (Some (length d + k)%nat) (d ++ l) = lv_obj_get_parent (Some k) l.
Proof.
  unfold lv_obj_get_parent. rewrite lookup_app_r by lia.
  replace (length d + k - length d)%nat with k by lia. reflexivity.
Qed.

Lemma get_parent_app_0 (d l : display) :
  lv_obj_get_parent (Some (length d)) (d ++ l) = lv_obj_get_parent (Some 0%nat) l.
Proof. rewrite <- (Nat.add_0_r (length d)) at 1. apply get_parent_app_r. Qed.

Lemma fresh_index (d : display) : d !! length d = None.
Proof. apply lookup_ge_None. lia. Qed.

(** The handler of variant 1, started by the work queue, leaves the work
    scheduled one second ahead. *)
Lemma singleton_handler_rearms e s :
  work_timeout
    (Singleton.time_update_work
       (Singleton.time_update_work_handler e
          (Singleton.set_time_update_work
             (k_work_take (Singleton.time_update_work s)) s)))
  = Some (K_SECONDS 1).
Proof.
  unfold Singleton.time_update_work_handler, Singleton.update_time_display.
  destruct s as [ci [tl|] dl bi ic w d]; reflexivity.
Qed.

End MountFacts.

(** C6, as the code has it. In the singleton variant initialisation
    schedules the time-update work one second ahead, and every run of its
    handler by the work queue refreshes the clock label and leaves the work
    scheduled one second ahead again: after initialisation at uptime [u] the
    [n+1]-th expiry happens at [u + (n+1) * 1000] ms, shows that instant and
    leaves the timer armed.  The handler of the per-instance variant has an
    empty body: it changes nothing, and that variant's initialisation leaves
    the work item as it found it. *)
Theorem timer_rearms (e : env) (parent : ptr) (s0 s : Singleton.world) (n : nat)
    (w2 : Instance.zmk_widget_status) (s2 : Instance.world) :
  let s1 := snd (Singleton.zmk_widget_status_init e parent s0) in
  let t := k_uptime_get e + Z.of_nat (S n) * K_SECONDS 1 in
  SingletonRun.armed s1 /\
  work_timeout
    (Singleton.time_update_work
       (Singleton.time_update_work_handler e
          (Singleton.set_time_update_work
             (k_work_take (Singleton.time_update_work s)) s)))
  = Some (K_SECONDS 1) /\
  (exists s', Singleton.work_queue_run (S n) e s1 = Some (set_uptime t e, s') /\
              SingletonRun.armed s' /\
              SingletonRun.clock_text s' = Some (time_str t)) /\
  Instance.time_update_work_handler e s2 = s2 /\
  Instance.time_update_work (snd (Instance.zmk_widget_status_init e w2 parent s2))
  = Instance.time_update_work s2.
Proof.
  cbv zeta.
  pose proof (SingletonFacts.ticking_init e parent s0) as Ht.
  split; [apply Ht|]. split; [apply MountFacts.singleton_handler_rearms|].
  split.
  - destruct (SingletonFacts.ticking_run n e _ Ht) as (s' & Hrun & (_ & _ & Harmed) & Htext).
    exists s'. auto.
  - split; [reflexivity|]. rewrite InstanceFacts.inst_init_closed. reflexivity.
Qed.

(** C6 as stated fails on the per-instance variant: its handler returns
    with the work item still unscheduled, and after that variant's
    initialisation the work queue has nothing to run. *)
Lemma timer_rearms_counterexample :
  work_timeout
    (Instance.time_update_work
       (Instance.time_update_work_handler env0 (snd instance0))) = None /\
  (work_timeout
     (Instance.time_update_work
        (Instance.time_update_work_handler env0 (snd instance0)))
   = Some (K_SECONDS 1) -> False) /\
  Instance.work_queue_step env0 (snd instance0) = None.
Proof. repeat split. discriminate. Qed.

(** C7, as the code has it. Initialisation takes the parent surface and
    returns the status 0, not a handle.  In the per-instance variant the
    accessor returns the container that initialisation has just created
    under the parent, and the clock label hangs under that container; the
    status screen returns the parentless screen object it has just created;
    in the singleton variant the accessor returns the null handle: that
    variant creates a top row and the clock label under the parent surface
    and the connection, date and battery labels under the top row, and keeps
    no object that stands for the widget as a whole. *)
Theorem initialize_handles (e : env) (parent : ptr) (cfg : Screen.kconfig)
    (s1 : Singleton.world) (w0 : Instance.zmk_widget_status)
    (s2 : Instance.world) (s3 : Screen.world) :
  let r1 := Singleton.zmk_widget_status_init e parent s1 in
  let r2 := Instance.zmk_widget_status_init e w0 parent s2 in
  let r3 := Screen.zmk_display_status_screen cfg e s3 in
  (fst r1 = 0 /\
   Singleton.zmk_widget_status_obj = NULL /\
   lv_obj_get_parent (Singleton.time_label (snd r1)) (Singleton.lv (snd r1))
   = Some parent /\
   lv_obj_get_parent (Some (length (Singleton.lv s1))) (Singleton.lv (snd r1))
   = Some parent /\
   lv_obj_get_parent (Singleton.connection_icon (snd r1)) (Singleton.lv (snd r1))
   = Some (Some (length (Singleton.lv s1))) /\
   lv_obj_get_parent (Singleton.date_label (snd r1)) (Singleton.lv (snd r1))
   = Some (Some (length (Singleton.lv s1))) /\
   lv_obj_get_parent (Singleton.battery_icon (snd r1)) (Singleton.lv (snd r1))
   = Some (Some (length (Singleton.lv s1)))) /\
  (fst (fst r2) = 0 /\
   Instance.zmk_widget_status_obj (snd (fst r2)) = Some (length (Instance.lv s2)) /\
   Instance.lv s2 !! length (Instance.lv s2) = None /\
   lv_obj_get_parent (Instance.zmk_widget_status_obj (snd (fst r2)))
     (Instance.lv (snd r2)) = Some parent /\
   lv_obj_get_parent (Instance.time_label (snd (fst r2))) (Instance.lv (snd r2))
   = Some (Instance.zmk_widget_status_obj (snd (fst r2)))) /\
  (fst r3 = Some (length (Screen.lv s3)) /\
   Screen.lv s3 !! length (Screen.lv s3) = None /\
   lv_obj_get_parent (fst r3) (Screen.lv (snd r3)) = Some NULL).
Proof.
  cbv zeta.
  rewrite SingletonFacts.init_closed, InstanceFacts.inst_init_closed,
    ScreenFacts.screen_closed.
  cbv zeta. cbn [fst snd].
  cbn [Singleton.time_label Singleton.connection_icon Singleton.date_label
       Singleton.battery_icon Singleton.lv
       Instance.obj Instance.time_label Instance.lv Instance.zmk_widget_status_obj
       Screen.lv].
  unfold Instance.zmk_widget_status_obj. cbn [Instance.obj].
  rewrite <- (LvglFacts.length_update parent
                (add_attr (attr_local_style (bg_color lv_color_black) LV_PART_MAIN))
                (Singleton.lv s1)).
  unfold lv_obj_set_style_bg_color.
  rewrite !MountFacts.get_parent_app_r, !MountFacts.get_parent_app_0.
  rewrite !MountFacts.fresh_index.
  rewrite LvglFacts.length_update.
  repeat split; reflexivity.
Qed.

(** C7 as stated fails on the singleton variant: initialisation returns
    the integer 0 and the accessor returns the null handle, which is no
    object of the store. *)
Lemma initialize_handles_counterexample :
  fst (Singleton.zmk_widget_status_init env0 (Some 0%nat) (Singleton.boot store0)) = 0 /\
  Singleton.zmk_widget_status_obj = NULL /\
  lv_obj_get_parent Singleton.zmk_widget_status_obj (Singleton.lv singleton0) = None.
Proof. repeat split. Qed.

(** C8. Every refresh whose display handle is null returns at once and
    changes nothing: no text is written and the whole state is the one it
    was given.  The guard is the same in all three refresh paths (and in
    the date update), in every variant. *)
Theorem null_handle_noop (e : env) (s1 : Singleton.world) (d : display)
    (s3 : Screen.world) :
  ((Singleton.connection_icon s1 = NULL -> Singleton.update_connection_icon e s1 = s1) /\
   (Singleton.time_label s1 = NULL -> Singleton.update_time_display e s1 = s1) /\
   (Singleton.battery_icon s1 = NULL -> Singleton.update_battery_icon e s1 = s1) /\
   (Singleton.date_label s1 = NULL -> Singleton.update_date_display s1 = s1)) /\
  (Instance.update_connection_icon e NULL d = d /\
   Instance.update_time_display e NULL d = d /\
   Instance.update_battery_icon e NULL d = d) /\
  ((Screen.connection_icon (Screen.state s3) = NULL ->
    Screen.set_connection_status e s3 = s3) /\
   (Screen.time_label (Screen.state s3) = NULL -> Screen.update_time e s3 = s3) /\
   (Screen.battery_icon (Screen.state s3) = NULL ->
    Screen.set_battery_status e s3 = s3)).
Proof.
  split; [|split].
  - unfold Singleton.update_connection_icon, Singleton.update_time_display,
      Singleton.update_battery_icon, Singleton.update_date_display.
    repeat split; intros ->; reflexivity.
  - repeat split.
  - unfold Screen.set_connection_status, Screen.update_time, Screen.set_battery_status.
    repeat split; intros ->; reflexivity.
Qed.

(** Before initialisation every handle is null: the events change nothing. *)
Lemma null_handle_noop_witness :
  let s := Singleton.boot store0 in
  Singleton.update_connection_icon env0 s = s /\
  Singleton.update_time_display env0 s = s /\
  Singleton.update_battery_icon env0 s = s /\
  Screen.set_battery_status env0 (Screen.boot store0) = Screen.boot store0.
Proof.
  cbv zeta.
  destruct (null_handle_noop env0 (Singleton.boot store0) store0 (Screen.boot store0))
    as ((H1 & H2 & H3 & _) & _ & (_ & _ & H4)).
  split; [apply H1 | split; [apply H2 | split; [apply H3 | apply H4]]]; reflexivity.
Defined.

(** C9. In every state the widget can reach, the battery refresh changes
    the battery label and nothing else: the handles, [is_connected] and the
    timer are as before, every other object of the store is untouched, the
    connection glyph, the clock text and the date text are the ones shown
    before, and the battery label shows the glyph of the table row of the
    reading.  The same holds for the status screen. *)
Theorem refreshBattery_frame (e : env) (s1 : Singleton.world) (s3 : Screen.world) :
  SingletonRun.reachable s1 ->
  ScreenRun.reachable s3 ->
  let p := CInt.to_uint8 (zmk_battery_state_of_charge e) in
  let s1' := Singleton.update_battery_icon e s1 in
  let s3' := Screen.set_battery_status e s3 in
  ((Singleton.connection_icon s1' = Singleton.connection_icon s1 /\
    Singleton.time_label s1' = Singleton.time_label s1 /\
    Singleton.date_label s1' = Singleton.date_label s1 /\
    Singleton.battery_icon s1' = Singleton.battery_icon s1 /\
    Singleton.is_connected s1' = Singleton.is_connected s1 /\
    Singleton.time_update_work s1' = Singleton.time_update_work s1) /\
   (SingletonRun.connection_text s1' = SingletonRun.connection_text s1 /\
    SingletonRun.clock_text s1' = SingletonRun.clock_text s1 /\
    SingletonRun.date_text s1' = SingletonRun.date_text s1) /\
   (forall j, Singleton.battery_icon s1 <> Some j ->
              Singleton.lv s1' !! j = Singleton.lv s1 !! j) /\
   (Singleton.battery_icon s1 <> NULL ->
    battery_contract p (SingletonRun.battery_text s1'))) /\
  (Screen.state s3' = Screen.state s3 /\
   (ScreenRun.connection_text s3' = ScreenRun.connection_text s3 /\
    ScreenRun.clock_text s3' = ScreenRun.clock_text s3 /\
    ScreenRun.date_text s3' = ScreenRun.date_text s3) /\
   (forall j, Screen.battery_icon (Screen.state s3) <> Some j ->
              Screen.lv s3' !! j = Screen.lv s3 !! j) /\
   (Screen.battery_icon (Screen.state s3) <> NULL ->
    battery_contract p (ScreenRun.battery_text s3'))).
Proof.
  intros R1 R3. cbv zeta.
  apply SingletonFacts.inv_reachable in R1.
  apply ScreenFacts.scr_inv_reachable in R3.
  split.
  - split; [apply SingletonFacts.update_battery_icon_fields|].
    split; [now apply SingletonFacts.update_battery_icon_others|].
    split; [intros j; apply SingletonFacts.update_battery_icon_objects|].
    intros Hnn.
    destruct (SingletonFacts.inv_distinct s1 R1) as (_ & _ & _ & Hl & _); [tauto|].
    rewrite SingletonFacts.update_battery_icon_text by exact Hl.
    apply ClassifyFacts.battery_contract_classify.
  - destruct (ScreenFacts.set_battery_status_others e s3 R3) as (Hst & Hothers).
    split; [exact Hst|]. split; [exact Hothers|].
    split; [intros j; apply ScreenFacts.set_battery_status_objects|].
    intros Hnn.
    destruct (ScreenFacts.scr_inv_distinct s3 R3) as (_ & _ & _ & Hl & _); [tauto|].
    rewrite ScreenFacts.set_battery_status_text by exact Hl.
    apply ClassifyFacts.battery_contract_classify.
Qed.

(** Battery at 45% with the Bluetooth profile connected, then a drop to
    15%: tier 2 becomes empty and the connection glyph stays. *)
Lemma refreshBattery_frame_witness :
  let s := Singleton.update_battery_icon (set_battery 15 env0) singleton0 in
  SingletonRun.battery_text singleton0 = Some LV_SYMBOL_BATTERY_2 /\
  SingletonRun.connection_text singleton0 = Some WIFI_ICON /\
  SingletonRun.battery_text s = Some LV_SYMBOL_BATTERY_EMPTY /\
  SingletonRun.connection_text s = Some WIFI_ICON /\
  SingletonRun.clock_text s = Some "01:01" /\
  SingletonRun.date_text s = Some "27/10/2025".
Proof.
  cbv zeta.
  destruct (refreshBattery_frame (set_battery 15 env0) singleton0 screen0
              (SingletonRun.reach_init env0 (Some 0%nat) _ (SingletonRun.reach_boot store0))
              (ScreenRun.reach_screen (Screen.mk_kconfig true false) env0 _
                 (ScreenRun.reach_boot [])))
    as ((_ & (Hc & Ht & Hd) & _ & Hb) & _).
  cbv zeta in Hb.
  destruct (Hb ltac:(discriminate)) as (g & Hg & _ & _ & Huniq).
  rewrite Hc, Ht, Hd, Hg.
  rewrite <- (Huniq LV_SYMBOL_BATTERY_EMPTY) by (apply Spec.row_empty; vm_compute; discriminate).
  repeat split.
Defined.

(** C10. The date text is the constant 27/10/2025: the date update writes
    it into the date label whatever the state, every initialisation of every
    variant leaves the date label showing it whatever the queries return,
    and in every state a variant can reach afterwards the date label still
    shows it. *)
Theorem date_is_constant (e : env) (parent : ptr) (cfg : Screen.kconfig)
    (s0 s1 : Singleton.world) (w0 w2 : Instance.zmk_widget_status)
    (s20 s2 : Instance.world) (s30 s3 : Screen.world) :
  is_label (Singleton.date_label s0) (Singleton.lv s0) ->
  SingletonRun.reachable s1 ->
  InstanceRun.reachable w2 s2 ->
  ScreenRun.reachable s3 ->
  let r2 := Instance.zmk_widget_status_init e w0 parent s20 in
  (SingletonRun.date_text (Singleton.update_date_display s0) = Some "27/10/2025" /\
   SingletonRun.date_text (snd (Singleton.zmk_widget_status_init e parent s0))
   = Some "27/10/2025" /\
   (Singleton.date_label s1 <> NULL -> SingletonRun.date_text s1 = Some "27/10/2025")) /\
  (InstanceRun.date_text (snd (fst r2)) (snd r2) = Some "27/10/2025" /\
   InstanceRun.date_text w2 s2 = Some "27/10/2025") /\
  (ScreenRun.date_text (snd (Screen.zmk_display_status_screen cfg e s30))
   = Some "27/10/2025" /\
   (Screen.date_label (Screen.state s3) <> NULL ->
    ScreenRun.date_text s3 = Some "27/10/2025")).
Proof.
  intros Hl R1 R2 R3. cbv zeta.
  split; [|split].
  - split; [now apply SingletonFacts.update_date_display_text|].
    split.
    + destruct (SingletonFacts.init_texts e parent s0) as (_ & _ & H & _). exact H.
    + apply SingletonFacts.inv_reachable in R1. destruct R1 as [_ H]. exact H.
  - assert (Hinit : InstanceRun.reachable
                      (snd (fst (Instance.zmk_widget_status_init e w0 parent s20)))
                      (snd (Instance.zmk_widget_status_init e w0 parent s20))).
    { destruct (Instance.zmk_widget_status_init e w0 parent s20) as [[rc w] s] eqn:E.
      eapply InstanceRun.reach_init, E. }
    apply InstanceFacts.inst_inv_reachable in Hinit, R2.
    destruct Hinit as [[_ H] Hn], R2 as [[_ H'] Hn'].
    split; [exact (H Hn) | exact (H' Hn')].
  - split.
    + pose proof (ScreenFacts.inv_screen cfg e s30) as [_ H].
      apply H. rewrite ScreenFacts.screen_closed. cbv zeta. cbn [snd Screen.state Screen.date_label].
      discriminate.
    + apply ScreenFacts.scr_inv_reachable in R3. destruct R3 as [_ H]. exact H.
Qed.

(** The date after initialisation, a USB event and a battery event, and
    after the initialisation of the other two variants. *)
Lemma date_is_constant_witness :
  SingletonRun.date_text singleton0 = Some "27/10/2025" /\
  SingletonRun.date_text
    (Singleton.widget_battery_status_update_cb (set_battery 15 env0)
       (snd (Singleton.widget_event_listener env0 singleton0)))
  = Some "27/10/2025" /\
  InstanceRun.date_text (fst instance0) (snd instance0) = Some "27/10/2025" /\
  ScreenRun.date_text screen0 = Some "27/10/2025".
Proof.
  pose (s1 := Singleton.widget_battery_status_update_cb (set_battery 15 env0)
                (snd (Singleton.widget_event_listener env0 singleton0))).
  assert (R0 : SingletonRun.reachable singleton0)
    by exact (SingletonRun.reach_init env0 (Some 0%nat) _ (SingletonRun.reach_boot store0)).
  assert (R1 : SingletonRun.reachable s1)
    by exact (SingletonRun.reach_battery_event _ _
                (SingletonRun.reach_usb_event env0 _ R0)).
  assert (R2 : InstanceRun.reachable (fst instance0) (snd instance0)).
  { apply (InstanceRun.reach_init env0 (Instance.mk_widget NULL NULL NULL NULL NULL) (Some 0%nat) (Instance.boot store0) 0). vm_compute. reflexivity. }
  assert (R3 : ScreenRun.reachable screen0)
    by exact (ScreenRun.reach_screen (Screen.mk_kconfig true false) env0 _
                (ScreenRun.reach_boot [])).
  pose proof (date_is_constant env0 (Some 0%nat) (Screen.mk_kconfig true false)
              singleton0 s1
              (Instance.mk_widget NULL NULL NULL NULL NULL) (fst instance0)
              (Instance.boot store0) (snd instance0) (Screen.boot []) screen0
              ltac:(vm_compute; eexists; reflexivity) R1 R2 R3) as H.
  cbv zeta in H.
  destruct H
    as ((_ & _ & H1) & (H2 & _) & (H3 & _)).
  split; [vm_compute; reflexivity|].
  split; [apply H1; vm_compute; discriminate|].
  split; [exact H2 | exact H3].
Defined.

(** * Further properties of the code *)

Module ClockFacts.
Import Measure.

Lemma digits_check_all :
  forallb (fun a => forallb (digits_check a) (seq 0 100)) (seq 0 100) = true.
Proof. vm_compute. reflexivity. Qed.

Lemma two_digits_inj a b :
  0 <= a < 100 -> 0 <= b < 100 -> Spec.two_digits a = Spec.two_digits b -> a = b.
Proof.
  intros Ha Hb E.
  pose proof digits_check_all as H.
  rewrite forallb_forall in H.
  specialize (H (Z.to_nat a) ltac:(apply in_seq; lia)).
  rewrite forallb_forall in H.
  specialize (H (Z.to_nat b) ltac:(apply in_seq; lia)).
  unfold digits_check in H. rewrite !Z2Nat.id in H by lia.
  rewrite E, String.eqb_refl in H. simpl in H.
  apply Nat.eqb_eq in H. lia.
Qed.

(** The two fields are the hour and the minute of the minute of the day. *)
Lemma time_fields_minute ms :
  0 <= ms ->
  time_fields ms = (minute_of_day ms / 60, minute_of_day ms mod 60).
Proof.
  intros H. rewrite time_fields_floor by exact H. unfold minute_of_day.
  f_equal; Z.div_mod_to_equations; lia.
Qed.

Lemma minute_of_day_range ms : 0 <= minute_of_day ms < 1440.
Proof. unfold minute_of_day. apply Z.mod_pos_bound. lia. Qed.

Lemma time_str_minute ms :
  0 <= ms ->
  time_str ms = Spec.two_digits (minute_of_day ms / 60) +:+ ":" +:+
                Spec.two_digits (minute_of_day ms mod 60).
Proof.
  intros H. pose proof (minute_of_day_range ms) as Hr.
  unfold time_str. rewrite time_fields_minute by exact H.
  rewrite PrintfFacts.snprintf_small, PrintfFacts.sprintf_small;
    try reflexivity; Z.div_mod_to_equations; lia.
Qed.

End ClockFacts.

(** X2. For non-negative uptimes the clock text is determined by the
    minute of the 24-hour cycle and determines it: two uptimes show the same
    text exactly when they fall in the same minute of the day.  In
    particular the text repeats every 24 hours. *)
Theorem time_str_minute_of_day (a b : Z) :
  0 <= a -> 0 <= b ->
  (time_str a = time_str b <-> Measure.minute_of_day a = Measure.minute_of_day b) /\
  time_str (a + 86400000) = time_str a.
Proof.
  intros Ha Hb.
  pose proof (ClockFacts.minute_of_day_range a) as Ra.
  pose proof (ClockFacts.minute_of_day_range b) as Rb.
  split.
  - rewrite !ClockFacts.time_str_minute by assumption. split.
    + intros E. unfold Spec.two_digits in E. simpl in E.
      injection E as E1 E2 E3 E4.
      assert (Hh : Measure.minute_of_day a / 60 = Measure.minute_of_day b / 60).
      { apply ClockFacts.two_digits_inj;
          [Z.div_mod_to_equations; lia | Z.div_mod_to_equations; lia|].
        unfold Spec.two_digits. now rewrite E1, E2. }
      assert (Hm : Measure.minute_of_day a mod 60 = Measure.minute_of_day b mod 60).
      { apply ClockFacts.two_digits_inj;
          [Z.div_mod_to_equations; lia | Z.div_mod_to_equations; lia|].
        unfold Spec.two_digits. now rewrite E3, E4. }
      Z.div_mod_to_equations. lia.
    + intros ->. reflexivity.
  - rewrite !ClockFacts.time_str_minute by lia.
    replace (Measure.minute_of_day (a + 86400000)) with (Measure.minute_of_day a);
      [reflexivity|].
    unfold Measure.minute_of_day. Z.div_mod_to_equations. lia.
Qed.

Lemma time_str_minute_of_day_witness :
  time_str 3661000 = time_str 3719999 /\ time_str 90061000 = time_str 3661000.
Proof.
  destruct (time_str_minute_of_day 3661000 3719999 ltac:(lia) ltac:(lia)) as [[_ H] _].
  split; [apply H; reflexivity|].
  exact (proj2 (time_str_minute_of_day 3661000 0 ltac:(lia) ltac:(lia))).
Defined.

(** ** Writing texts: the last write wins, writes to different labels commute *)

Module WriteFacts.

Lemma put_text_overwrite t t' o : put_text t (put_text t' o) = put_text t o.
Proof. destruct o as [p [x|] a]; reflexivity. Qed.

Lemma set_text_overwrite o t t' (d : display) :
  lv_label_set_text o t (lv_label_set_text o t' d) = lv_label_set_text o t d.
Proof.
  destruct o as [i|]; [|reflexivity]. unfold lv_label_set_text, update.
  rewrite list_alter_alter_eq. apply list_alter_ext; [|reflexivity].
  intros x _. apply put_text_overwrite.
Qed.

Lemma set_text_commute o1 o2 t1 t2 (d : display) :
  o1 <> o2 ->
  lv_label_set_text o1 t1 (lv_label_set_text o2 t2 d)
  = lv_label_set_text o2 t2 (lv_label_set_text o1 t1 d).
Proof.
  intros Hne. destruct o1 as [i|], o2 as [j|]; try reflexivity.
  unfold lv_label_set_text, update. apply list_alter_alter_ne. congruence.
Qed.

End WriteFacts.

Module SingletonMore.
Import Singleton SingletonRun Built Measure.

Ltac world_cbn :=
  cbn [connection_icon time_label date_label battery_icon is_connected
       time_update_work lv set_lv set_connection_icon set_time_label
       set_date_label set_battery_icon set_is_connected set_time_update_work].

Lemma update_time_display_eq e s :
  update_time_display e s =
  match time_label s with
  | None => s
  | Some _ => set_lv (lv_label_set_text (time_label s) (time_str (k_uptime_get e)) (lv s)) s
  end.
Proof. reflexivity. Qed.

Lemma connection_overwrite e1 e2 s :
  update_connection_icon e2 (update_connection_icon e1 s) = update_connection_icon e2 s.
Proof.
  rewrite !SingletonFacts.update_connection_icon_eq.
  destruct s as [[i|] tl dl bi ic w d]; world_cbn; [|reflexivity].
  unfold set_is_connected, set_lv. world_cbn.
  now rewrite WriteFacts.set_text_overwrite.
Qed.

Lemma battery_overwrite e1 e2 s :
  update_battery_icon e2 (update_battery_icon e1 s) = update_battery_icon e2 s.
Proof.
  rewrite !SingletonFacts.update_battery_icon_eq.
  destruct s as [ci tl dl [i|] ic w d]; world_cbn; [|reflexivity].
  unfold set_lv. world_cbn. now rewrite WriteFacts.set_text_overwrite.
Qed.

Lemma time_overwrite e1 e2 s :
  update_time_display e2 (update_time_display e1 s) = update_time_display e2 s.
Proof.
  rewrite !update_time_display_eq.
  destruct s as [ci [i|] dl bi ic w d]; world_cbn; [|reflexivity].
  unfold set_lv. world_cbn. now rewrite WriteFacts.set_text_overwrite.
Qed.

(** The statics a refresh leaves alone. *)
Lemma update_connection_icon_fields e s :
  let s' := update_connection_icon e s in
  connection_icon s' = connection_icon s /\ time_label s' = time_label s /\
  date_label s' = date_label s /\ battery_icon s' = battery_icon s /\
  time_update_work s' = time_update_work s.
Proof.
  cbv zeta. rewrite SingletonFacts.update_connection_icon_eq.
  destruct (connection_icon s) eqn:E; world_cbn; rewrite ?E; repeat split; reflexivity.
Qed.

Lemma update_time_display_fields e s :
  let s' := update_time_display e s in
  connection_icon s' = connection_icon s /\ time_label s' = time_label s /\
  date_label s' = date_label s /\ battery_icon s' = battery_icon s /\
  is_connected s' = is_connected s /\ time_update_work s' = time_update_work s.
Proof.
  cbv zeta. rewrite update_time_display_eq.
  destruct (time_label s) eqn:E; world_cbn; rewrite ?E; repeat split; reflexivity.
Qed.

Lemma update_connection_icon_others e s :
  singleton_inv s ->
  let s' := update_connection_icon e s in
  clock_text s' = clock_text s /\ date_text s' = date_text s /\
  battery_text s' = battery_text s.
Proof.
  intros H. cbv zeta. unfold clock_text, date_text, battery_text.
  rewrite SingletonFacts.update_connection_icon_eq.
  destruct (connection_icon s) as [i|] eqn:E; [|repeat split; reflexivity].
  destruct (SingletonFacts.inv_distinct s H) as (_ & _ & _ & _ & H1 & H2 & H3 & _);
    [left; congruence|].
  world_cbn. rewrite <- E.
  rewrite !LvglFacts.get_text_set_text_ne by congruence.
  repeat split; reflexivity.
Qed.

Lemma update_time_display_others e s :
  singleton_inv s ->
  let s' := update_time_display e s in
  connection_text s' = connection_text s /\ date_text s' = date_text s /\
  battery_text s' = battery_text s.
Proof.
  intros H. cbv zeta. unfold connection_text, date_text, battery_text.
  rewrite update_time_display_eq.
  destruct (time_label s) as [i|] eqn:E; [|repeat split; reflexivity].
  destruct (SingletonFacts.inv_distinct s H)
    as (_ & _ & _ & _ & H1 & _ & _ & H2 & H3 & _); [right; left; congruence|].
  world_cbn. rewrite <- E.
  rewrite !LvglFacts.get_text_set_text_ne by congruence.
  repeat split; reflexivity.
Qed.

Lemma update_connection_icon_objects e s j :
  connection_icon s <> Some j -> lv (update_connection_icon e s) !! j = lv s !! j.
Proof.
  intros Hne. rewrite SingletonFacts.update_connection_icon_eq.
  destruct (connection_icon s) as [i|] eqn:E; [|reflexivity].
  world_cbn. apply LvglFacts.lookup_update_ne. congruence.
Qed.

Lemma update_time_display_objects e s j :
  time_label s <> Some j -> lv (update_time_display e s) !! j = lv s !! j.
Proof.
  intros Hne. rewrite update_time_display_eq.
  destruct (time_label s) as [i|] eqn:E; [|reflexivity].
  world_cbn. apply LvglFacts.lookup_update_ne. congruence.
Qed.

(** Refreshes of different labels commute. *)
Lemma battery_connection_commute e1 e2 s :
  singleton_inv s ->
  update_battery_icon e1 (update_connection_icon e2 s)
  = update_connection_icon e2 (update_battery_icon e1 s).
Proof.
  intros H.
  rewrite !SingletonFacts.update_battery_icon_eq, !SingletonFacts.update_connection_icon_eq.
  destruct (connection_icon s) as [i|] eqn:Ec, (battery_icon s) as [j|] eqn:Eb;
    world_cbn; rewrite ?Ec, ?Eb; try reflexivity.
  destruct (SingletonFacts.inv_distinct s H) as (_ & _ & _ & _ & _ & _ & Hne & _);
    [left; congruence|].
  unfold set_is_connected, set_lv. world_cbn. f_equal.
  apply WriteFacts.set_text_commute. congruence.
Qed.

Lemma battery_time_commute e1 e2 s :
  singleton_inv s ->
  update_battery_icon e1 (update_time_display e2 s)
  = update_time_display e2 (update_battery_icon e1 s).
Proof.
  intros H.
  rewrite !SingletonFacts.update_battery_icon_eq, !update_time_display_eq.
  destruct (time_label s) as [i|] eqn:Ec, (battery_icon s) as [j|] eqn:Eb;
    world_cbn; rewrite ?Ec, ?Eb; try reflexivity.
  destruct (SingletonFacts.inv_distinct s H) as (_ & _ & _ & _ & _ & _ & _ & _ & Hne & _);
    [right; left; congruence|].
  unfold set_lv. world_cbn. f_equal.
  apply WriteFacts.set_text_commute. congruence.
Qed.

Lemma connection_time_commute e1 e2 s :
  singleton_inv s ->
  update_connection_icon e1 (update_time_display e2 s)
  = update_time_display e2 (update_connection_icon e1 s).
Proof.
  intros H.
  rewrite !SingletonFacts.update_connection_icon_eq, !update_time_display_eq.
  destruct (time_label s) as [i|] eqn:Ec, (connection_icon s) as [j|] eqn:Eb;
    world_cbn; rewrite ?Ec, ?Eb; try reflexivity.
  destruct (SingletonFacts.inv_distinct s H) as (_ & _ & _ & _ & Hne & _);
    [left; congruence|].
  unfold set_is_connected, set_lv. world_cbn. f_equal.
  apply WriteFacts.set_text_commute. congruence.
Qed.

End SingletonMore.

(** ** What every reachable state of the singleton widget shows *)

Module SingletonShown.
Import Singleton SingletonRun Built Measure.

Abbreviation shown := singleton_shown.

Lemma shown_init e parent s : shown (snd (zmk_widget_status_init e parent s)).
Proof.
  right.
  destruct (SingletonFacts.init_texts e parent s) as (Hc & Ht & Hd & Hb).
  rewrite SingletonFacts.init_closed in *. cbn [snd] in *. cbv zeta in *.
  cbn [connection_icon time_label date_label battery_icon].
  repeat (split; [discriminate|]).
  unfold singleton_display_ok. cbn [is_connected].
  split; [exact Hc|]. split; [eexists; exact Ht|]. split; [exact Hd|].
  eexists. split; [exact Hb|]. apply ClassifyFacts.classifyBattery_glyph.
Qed.

Lemma shown_connection_refresh e s :
  singleton_inv s -> shown s -> shown (update_connection_icon e s).
Proof.
  intros Hinv [(Hc & Ht & Hd & Hb)|(Hc & Ht & Hd & Hb & Hok)].
  - rewrite SingletonFacts.update_connection_icon_eq, Hc. left. auto.
  - right.
    destruct (SingletonMore.update_connection_icon_fields e s) as (F1 & F2 & F3 & F4 & _).
    rewrite F1, F2, F3, F4. repeat (split; [assumption|]).
    destruct (SingletonFacts.inv_distinct s Hinv) as (Hl & _); [left; exact Hc|].
    destruct (SingletonFacts.update_connection_icon_text e s Hl) as [Hshown Hflag].
    destruct (SingletonMore.update_connection_icon_others e s Hinv) as (O1 & O2 & O3).
    destruct Hok as (_ & K2 & K3 & K4).
    unfold singleton_display_ok. rewrite Hshown, Hflag, O1, O2, O3.
    repeat split; assumption.
Qed.

Lemma shown_battery_refresh e s :
  singleton_inv s -> shown s -> shown (update_battery_icon e s).
Proof.
  intros Hinv [(Hc & Ht & Hd & Hb)|(Hc & Ht & Hd & Hb & Hok)].
  - rewrite SingletonFacts.update_battery_icon_eq, Hb. left. auto.
  - right.
    destruct (SingletonFacts.update_battery_icon_fields e s) as (F1 & F2 & F3 & F4 & F5 & _).
    rewrite F1, F2, F3, F4. repeat (split; [assumption|]).
    destruct (SingletonFacts.inv_distinct s Hinv) as (_ & _ & _ & Hl & _); [left; exact Hc|].
    pose proof (SingletonFacts.update_battery_icon_text e s Hl) as Hshown.
    destruct (SingletonFacts.update_battery_icon_others e s Hinv) as (O1 & O2 & O3).
    destruct Hok as (K1 & K2 & K3 & _).
    unfold singleton_display_ok. rewrite Hshown, F5, O1, O2, O3.
    split; [assumption|]. split; [assumption|]. split; [assumption|].
    eexists. split; [reflexivity|]. apply ClassifyFacts.classifyBattery_glyph.
Qed.

Lemma shown_time_refresh e s :
  singleton_inv s -> shown s -> shown (update_time_display e s).
Proof.
  intros Hinv [(Hc & Ht & Hd & Hb)|(Hc & Ht & Hd & Hb & Hok)].
  - rewrite SingletonMore.update_time_display_eq, Ht. left. auto.
  - right.
    destruct (SingletonMore.update_time_display_fields e s) as (F1 & F2 & F3 & F4 & F5 & _).
    rewrite F1, F2, F3, F4. repeat (split; [assumption|]).
    destruct (SingletonFacts.inv_distinct s Hinv) as (_ & Hl & _); [left; exact Hc|].
    pose proof (SingletonFacts.update_time_display_text e s Hl) as Hshown.
    destruct (SingletonMore.update_time_display_others e s Hinv) as (O1 & O2 & O3).
    destruct Hok as (K1 & _ & K3 & K4).
    unfold singleton_display_ok. rewrite Hshown, F5, O1, O2, O3.
    split; [assumption|]. split; [eexists; reflexivity|]. split; assumption.
Qed.

Lemma shown_work w s : shown s -> shown (set_time_update_work w s).
Proof. exact (fun H => H). Qed.

Lemma shown_reachable s : reachable s -> shown s.
Proof.
  induction 1 as [d|e parent s _ _|e s R IH|e s R IH|e s e' s' R IH Hstep].
  - left. repeat split.
  - apply shown_init.
  - apply shown_connection_refresh; [apply SingletonFacts.inv_reachable, R|exact IH].
  - apply shown_battery_refresh; [apply SingletonFacts.inv_reachable, R|exact IH].
  - unfold work_queue_step in Hstep.
    destruct (work_timeout (time_update_work s)) as [delay|]; [|discriminate].
    destruct (work_handler (time_update_work s)) as [[]|]; [|discriminate].
    injection Hstep as <- <-. unfold run_handler, time_update_work_handler.
    apply shown_work, shown_time_refresh;
      [apply SingletonFacts.inv_work, SingletonFacts.inv_reachable, R
      | apply shown_work, IH].
Qed.

(** The timer: idle before initialisation, armed ever after. *)
Lemma timer_ok_reachable s : reachable s -> singleton_timer_ok s.
Proof.
  induction 1 as [d|e parent s _ _|e s R IH|e s R IH|e s e' s' R IH Hstep].
  - left. split; reflexivity.
  - right. destruct (SingletonFacts.ticking_init e parent s) as (_ & H1 & H2). auto.
  - unfold widget_event_listener. cbn [snd].
    destruct (SingletonMore.update_connection_icon_fields e s) as (_ & F2 & _ & _ & F5).
    unfold singleton_timer_ok, armed in *. rewrite F2, F5. exact IH.
  - unfold widget_battery_status_update_cb.
    destruct (SingletonFacts.update_battery_icon_fields e s) as (_ & F2 & _ & _ & _ & F6).
    unfold singleton_timer_ok, armed in *. rewrite F2, F6. exact IH.
  - destruct IH as [[_ Hz]|[Hl Ha]].
    + unfold work_queue_step in Hstep. rewrite Hz in Hstep. discriminate.
    + destruct (SingletonFacts.ticking_step e s) as (s'' & Hs & (_ & H1 & H2) & _).
      { split; [apply SingletonFacts.inv_reachable, R|]. split; assumption. }
      rewrite Hs in Hstep. injection Hstep as _ <-. right. auto.
Qed.

End SingletonShown.

(** ** The other two variants *)

Module VariantsMore.
Import Built Measure.

Lemma inst_connection_overwrite e1 e2 icon d :
  Instance.update_connection_icon e2 icon (Instance.update_connection_icon e1 icon d)
  = Instance.update_connection_icon e2 icon d.
Proof.
  rewrite !InstanceFacts.inst_update_connection_icon_eq.
  destruct icon; [apply WriteFacts.set_text_overwrite|reflexivity].
Qed.

Lemma inst_battery_overwrite e1 e2 icon d :
  Instance.update_battery_icon e2 icon (Instance.update_battery_icon e1 icon d)
  = Instance.update_battery_icon e2 icon d.
Proof.
  rewrite !InstanceFacts.inst_update_battery_icon_eq.
  destruct icon; [apply WriteFacts.set_text_overwrite|reflexivity].
Qed.

Lemma inst_time_overwrite e1 e2 label d :
  Instance.update_time_display e2 label (Instance.update_time_display e1 label d)
  = Instance.update_time_display e2 label d.
Proof.
  unfold Instance.update_time_display.
  destruct label; [apply WriteFacts.set_text_overwrite|reflexivity].
Qed.

Lemma scr_connection_overwrite e1 e2 s :
  Screen.set_connection_status e2 (Screen.set_connection_status e1 s)
  = Screen.set_connection_status e2 s.
Proof.
  rewrite !ScreenFacts.set_connection_status_eq.
  destruct s as [[[i|] tl dl bi] d]; cbn [Screen.connection_icon Screen.state Screen.lv Screen.set_lv];
    [|reflexivity].
  unfold Screen.set_lv. cbn [Screen.state Screen.lv].
  now rewrite WriteFacts.set_text_overwrite.
Qed.

Lemma scr_battery_overwrite e1 e2 s :
  Screen.set_battery_status e2 (Screen.set_battery_status e1 s)
  = Screen.set_battery_status e2 s.
Proof.
  rewrite !ScreenFacts.set_battery_status_eq.
  destruct s as [[ci tl dl [i|]] d]; cbn [Screen.battery_icon Screen.state Screen.lv Screen.set_lv];
    [|reflexivity].
  unfold Screen.set_lv. cbn [Screen.state Screen.lv].
  now rewrite WriteFacts.set_text_overwrite.
Qed.

Lemma scr_time_overwrite e1 e2 s :
  Screen.update_time e2 (Screen.update_time e1 s) = Screen.update_time e2 s.
Proof.
  unfold Screen.update_time.
  destruct s as [[ci [i|] dl bi] d]; cbn [Screen.time_label Screen.state Screen.lv Screen.set_lv];
    [|reflexivity].
  cbv zeta. unfold Screen.set_lv. cbn [Screen.state Screen.lv Screen.time_label].
  now rewrite WriteFacts.set_text_overwrite.
Qed.

(** The texts after the initialisation of the per-instance widget and after
    building the status screen. *)
Lemma inst_init_texts e w0 parent s :
  let r := Instance.zmk_widget_status_init e w0 parent s in
  let w := snd (fst r) in
  let d := Instance.lv (snd r) in
  lv_label_get_text (Instance.connection_icon w) d = Some (shown_connection e) /\
  lv_label_get_text (Instance.time_label w) d = Some (time_str (k_uptime_get e)) /\
  lv_label_get_text (Instance.date_label w) d = Some Spec.dateText /\
  lv_label_get_text (Instance.battery_icon w) d = Some (shown_battery e).
Proof.
  cbv zeta. rewrite InstanceFacts.inst_init_closed. cbv zeta. cbn [fst snd].
  cbn [Instance.connection_icon Instance.time_label Instance.date_label
       Instance.battery_icon Instance.lv].
  rewrite !LvglFacts.get_text_app_r. repeat split; reflexivity.
Qed.

Lemma scr_init_texts cfg e s :
  let s' := snd (Screen.zmk_display_status_screen cfg e s) in
  ScreenRun.connection_text s' = Some (shown_connection e) /\
  ScreenRun.clock_text s' = Some (time_str (k_uptime_get e)) /\
  ScreenRun.date_text s' = Some Spec.dateText /\
  ScreenRun.battery_text s' = Some (shown_battery e).
Proof.
  cbv zeta. rewrite ScreenFacts.screen_closed. cbv zeta. cbn [snd].
  unfold ScreenRun.connection_text, ScreenRun.clock_text, ScreenRun.date_text,
    ScreenRun.battery_text.
  cbn [Screen.connection_icon Screen.time_label Screen.date_label
       Screen.battery_icon Screen.state Screen.lv].
  rewrite !LvglFacts.get_text_app_r. repeat split; reflexivity.
Qed.

(** A fuller battery never shows an emptier glyph. *)
Lemma fullness_classify p q :
  p <= q ->
  (fullness (Spec.classifyBattery p) <= fullness (Spec.classifyBattery q))%nat.
Proof.
  intros Hpq. rewrite <- !ClassifyFacts.classify_chain.
  repeat match goal with
         | |- context [?a <? ?b] => destruct (Z.ltb_spec a b)
         end; try lia; vm_compute; lia.
Qed.

Lemma fullness_shown e p q :
  0 <= p <= q -> q <= 255 ->
  (fullness (shown_battery (set_battery p e))
   <= fullness (shown_battery (set_battery q e)))%nat.
Proof.
  intros Hp Hq. unfold shown_battery, set_battery. cbn [zmk_battery_state_of_charge].
  rewrite !CIntFacts.to_uint8_id by lia. apply fullness_classify. lia.
Qed.

End VariantsMore.

(** X3. In every variant the last refresh wins: refreshing with the query
    results [e2] after a refresh with [e1] leaves exactly the state that the
    refresh with [e2] alone leaves.  A refresh keeps nothing of earlier
    ones, and refreshing twice with the same results is refreshing once. *)
Theorem refresh_last_wins (e1 e2 : env) (s1 : Singleton.world) (icon : ptr)
    (d : display) (s3 : Screen.world) :
  (Singleton.update_connection_icon e2 (Singleton.update_connection_icon e1 s1)
   = Singleton.update_connection_icon e2 s1 /\
   Singleton.update_time_display e2 (Singleton.update_time_display e1 s1)
   = Singleton.update_time_display e2 s1 /\
   Singleton.update_battery_icon e2 (Singleton.update_battery_icon e1 s1)
   = Singleton.update_battery_icon e2 s1) /\
  (Instance.update_connection_icon e2 icon (Instance.update_connection_icon e1 icon d)
   = Instance.update_connection_icon e2 icon d /\
   Instance.update_time_display e2 icon (Instance.update_time_display e1 icon d)
   = Instance.update_time_display e2 icon d /\
   Instance.update_battery_icon e2 icon (Instance.update_battery_icon e1 icon d)
   = Instance.update_battery_icon e2 icon d) /\
  (Screen.set_connection_status e2 (Screen.set_connection_status e1 s3)
   = Screen.set_connection_status e2 s3 /\
   Screen.update_time e2 (Screen.update_time e1 s3) = Screen.update_time e2 s3 /\
   Screen.set_battery_status e2 (Screen.set_battery_status e1 s3)
   = Screen.set_battery_status e2 s3).
Proof.
  split; [|split]; (split; [|split]).
  - apply SingletonMore.connection_overwrite.
  - apply SingletonMore.time_overwrite.
  - apply SingletonMore.battery_overwrite.
  - apply VariantsMore.inst_connection_overwrite.
  - apply VariantsMore.inst_time_overwrite.
  - apply VariantsMore.inst_battery_overwrite.
  - apply VariantsMore.scr_connection_overwrite.
  - apply VariantsMore.scr_time_overwrite.
  - apply VariantsMore.scr_battery_overwrite.
Qed.

(** X4. In every reachable state of the singleton widget the USB event
    listener returns 0 and touches the connection label only, and the timer
    handler touches the clock label only: the handles, the texts of the
    other three labels and every other object of the store are as before;
    the listener also leaves the timer alone, and the handler leaves
    [is_connected] alone. *)
Theorem event_frames (e : env) (s : Singleton.world) :
  SingletonRun.reachable s ->
  let s1 := snd (Singleton.widget_event_listener e s) in
  let s2 := Singleton.time_update_work_handler e s in
  (fst (Singleton.widget_event_listener e s) = 0 /\
   (Singleton.connection_icon s1 = Singleton.connection_icon s /\
    Singleton.time_label s1 = Singleton.time_label s /\
    Singleton.date_label s1 = Singleton.date_label s /\
    Singleton.battery_icon s1 = Singleton.battery_icon s /\
    Singleton.time_update_work s1 = Singleton.time_update_work s) /\
   (SingletonRun.clock_text s1 = SingletonRun.clock_text s /\
    SingletonRun.date_text s1 = SingletonRun.date_text s /\
    SingletonRun.battery_text s1 = SingletonRun.battery_text s) /\
   (forall j, Singleton.connection_icon s <> Some j ->
              Singleton.lv s1 !! j = Singleton.lv s !! j)) /\
  ((Singleton.connection_icon s2 = Singleton.connection_icon s /\
    Singleton.time_label s2 = Singleton.time_label s /\
    Singleton.date_label s2 = Singleton.date_label s /\
    Singleton.battery_icon s2 = Singleton.battery_icon s /\
    Singleton.is_connected s2 = Singleton.is_connected s) /\
   (SingletonRun.connection_text s2 = SingletonRun.connection_text s /\
    SingletonRun.date_text s2 = SingletonRun.date_text s /\
    SingletonRun.battery_text s2 = SingletonRun.battery_text s) /\
   (forall j, Singleton.time_label s <> Some j ->
              Singleton.lv s2 !! j = Singleton.lv s !! j)).
Proof.
  intros R. apply SingletonFacts.inv_reachable in R. cbv zeta.
  unfold Singleton.widget_event_listener, Singleton.time_update_work_handler.
  cbn [fst snd]. split.
  - split; [reflexivity|].
    split; [apply SingletonMore.update_connection_icon_fields|].
    split; [now apply SingletonMore.update_connection_icon_others|].
    intros j. apply SingletonMore.update_connection_icon_objects.
  - destruct (SingletonMore.update_time_display_fields e s) as (F1 & F2 & F3 & F4 & F5 & _).
    split; [repeat split; assumption|].
    split; [exact (SingletonMore.update_time_display_others e s R)|].
    intros j. apply (SingletonMore.update_time_display_objects e s j).
Qed.

(** A USB event with USB power on the 45%-and-Bluetooth scenario: the
    battery keeps tier 2, the clock 01:01. *)
Lemma event_frames_witness :
  let s := snd (Singleton.widget_event_listener (mk_env true false 45 0) singleton0) in
  SingletonRun.battery_text s = Some LV_SYMBOL_BATTERY_2 /\
  SingletonRun.clock_text s = Some "01:01".
Proof.
  cbv zeta.
  destruct (event_frames (mk_env true false 45 0) singleton0
              (SingletonRun.reach_init env0 (Some 0%nat) _ (SingletonRun.reach_boot store0)))
    as ((_ & _ & (Hc & _ & Hb) & _) & _).
  cbv zeta in Hc, Hb. rewrite Hc, Hb. split; reflexivity.
Defined.

(** X5. In every reachable state of the singleton widget the three
    refreshes commute pairwise: the state after a battery event and a USB
    event, or after either and a timer refresh, does not depend on their
    order. *)
Theorem refreshes_commute (e1 e2 : env) (s : Singleton.world) :
  SingletonRun.reachable s ->
  Singleton.update_battery_icon e1 (Singleton.update_connection_icon e2 s)
  = Singleton.update_connection_icon e2 (Singleton.update_battery_icon e1 s) /\
  Singleton.update_battery_icon e1 (Singleton.update_time_display e2 s)
  = Singleton.update_time_display e2 (Singleton.update_battery_icon e1 s) /\
  Singleton.update_connection_icon e1 (Singleton.update_time_display e2 s)
  = Singleton.update_time_display e2 (Singleton.update_connection_icon e1 s).
Proof.
  intros R. apply SingletonFacts.inv_reachable in R.
  split; [|split].
  - now apply SingletonMore.battery_connection_commute.
  - now apply SingletonMore.battery_time_commute.
  - now apply SingletonMore.connection_time_commute.
Qed.

Lemma refreshes_commute_witness :
  Singleton.update_battery_icon (set_battery 15 env0)
    (Singleton.update_connection_icon (mk_env false false 45 0) singleton0)
  = Singleton.update_connection_icon (mk_env false false 45 0)
      (Singleton.update_battery_icon (set_battery 15 env0) singleton0).
Proof.
  exact (proj1 (refreshes_commute (set_battery 15 env0) (mk_env false false 45 0)
                  singleton0
                  (SingletonRun.reach_init env0 (Some 0%nat) _
                     (SingletonRun.reach_boot store0)))).
Defined.

(** X6. Initialisation ends with the live state on the display, whatever
    was there before: in every variant the connection label shows the glyph
    of the current USB and Bluetooth state, the clock label the formatted
    uptime, the date label the fixed date and the battery label the glyph
    of the current reading.  The placeholder texts written while the labels
    are created (the connected glyph, the full battery, 20:20) do not
    survive it. *)
Theorem init_shows_live_state (e : env) (parent : ptr) (cfg : Screen.kconfig)
    (s1 : Singleton.world) (w0 : Instance.zmk_widget_status)
    (s2 : Instance.world) (s3 : Screen.world) :
  let s1' := snd (Singleton.zmk_widget_status_init e parent s1) in
  let r2 := Instance.zmk_widget_status_init e w0 parent s2 in
  let s3' := snd (Screen.zmk_display_status_screen cfg e s3) in
  (SingletonRun.connection_text s1' = Some (shown_connection e) /\
   SingletonRun.clock_text s1' = Some (time_str (k_uptime_get e)) /\
   SingletonRun.date_text s1' = Some "27/10/2025" /\
   SingletonRun.battery_text s1' = Some (shown_battery e) /\
   Singleton.is_connected s1'
   = zmk_usb_is_powered e || zmk_ble_active_profile_is_connected e) /\
  (lv_label_get_text (Instance.connection_icon (snd (fst r2))) (Instance.lv (snd r2))
   = Some (shown_connection e) /\
   lv_label_get_text (Instance.time_label (snd (fst r2))) (Instance.lv (snd r2))
   = Some (time_str (k_uptime_get e)) /\
   lv_label_get_text (Instance.date_label (snd (fst r2))) (Instance.lv (snd r2))
   = Some "27/10/2025" /\
   lv_label_get_text (Instance.battery_icon (snd (fst r2))) (Instance.lv (snd r2))
   = Some (shown_battery e)) /\
  (ScreenRun.connection_text s3' = Some (shown_connection e) /\
   ScreenRun.clock_text s3' = Some (time_str (k_uptime_get e)) /\
   ScreenRun.date_text s3' = Some "27/10/2025" /\
   ScreenRun.battery_text s3' = Some (shown_battery e)).
Proof.
  cbv zeta. split; [|split].
  - destruct (SingletonFacts.init_texts e parent s1) as (H1 & H2 & H3 & H4).
    split; [exact H1|]. split; [exact H2|]. split; [exact H3|]. split; [exact H4|].
    rewrite SingletonFacts.init_closed. reflexivity.
  - exact (VariantsMore.inst_init_texts e w0 parent s2).
  - exact (VariantsMore.scr_init_texts cfg e s3).
Qed.

(** X7. Initialisation only adds objects.  The per-instance widget and the
    status screen leave every object of the store as it was and append six
    new ones; the singleton widget appends five and changes one thing in
    the existing store, the background colour it sets on the parent
    surface.  The handles they hand out all point at the new objects, so no
    label of an earlier initialisation or of another widget is written
    through them. *)
Theorem init_only_adds (e : env) (parent : ptr) (cfg : Screen.kconfig)
    (s1 : Singleton.world) (w0 : Instance.zmk_widget_status)
    (s2 : Instance.world) (s3 : Screen.world) :
  let s1' := snd (Singleton.zmk_widget_status_init e parent s1) in
  let r2 := Instance.zmk_widget_status_init e w0 parent s2 in
  let r3 := Screen.zmk_display_status_screen cfg e s3 in
  let n1 := length (Singleton.lv s1) in
  let n2 := length (Instance.lv s2) in
  let n3 := length (Screen.lv s3) in
  ((exists l, Singleton.lv s1'
              = lv_obj_set_style_bg_color parent lv_color_black LV_PART_MAIN
                  (Singleton.lv s1) ++ l /\ length l = 5%nat) /\
   (forall j, (j < n1)%nat ->
      lv_label_get_text (Some j) (Singleton.lv s1')
      = lv_label_get_text (Some j) (Singleton.lv s1) /\
      lv_obj_get_parent (Some j) (Singleton.lv s1')
      = lv_obj_get_parent (Some j) (Singleton.lv s1)) /\
   Singleton.connection_icon s1' = Some (n1 + 1)%nat /\
   Singleton.date_label s1' = Some (n1 + 2)%nat /\
   Singleton.battery_icon s1' = Some (n1 + 3)%nat /\
   Singleton.time_label s1' = Some (n1 + 4)%nat) /\
  ((exists l, Instance.lv (snd r2) = Instance.lv s2 ++ l /\ length l = 6%nat) /\
   snd (fst r2) = Instance.mk_widget (Some n2) (Some (n2 + 2)%nat) (Some (n2 + 5)%nat)
                    (Some (n2 + 3)%nat) (Some (n2 + 4)%nat)) /\
  ((exists l, Screen.lv (snd r3) = Screen.lv s3 ++ l /\ length l = 6%nat) /\
   fst r3 = Some n3 /\
   Screen.state (snd r3) = Screen.mk_state (Some (n3 + 2)%nat) (Some (n3 + 5)%nat)
                             (Some (n3 + 3)%nat) (Some (n3 + 4)%nat)).
Proof.
  cbv zeta.
  rewrite SingletonFacts.init_closed, InstanceFacts.inst_init_closed,
    ScreenFacts.screen_closed.
  cbv zeta. cbn [fst snd Singleton.lv Singleton.connection_icon Singleton.date_label
                 Singleton.battery_icon Singleton.time_label Instance.lv Screen.lv
                 Screen.state].
  split; [|split].
  - split; [eexists; split; reflexivity|].
    split; [|repeat split; reflexivity].
    intros j Hj.
    assert (Hlen : (j < length (lv_obj_set_style_bg_color parent lv_color_black
                                  LV_PART_MAIN (Singleton.lv s1)))%nat)
      by (unfold lv_obj_set_style_bg_color; now rewrite LvglFacts.length_update).
    split.
    + rewrite LvglFacts.get_text_app_l by exact Hlen.
      apply LvglFacts.get_text_add_attr.
    + unfold lv_obj_get_parent. rewrite lookup_app_l by exact Hlen.
      unfold lv_obj_set_style_bg_color.
      destruct (decide (parent = Some j)) as [->|Hne].
      * rewrite LvglFacts.lookup_update_eq.
        destruct (Singleton.lv s1 !! j); reflexivity.
      * now rewrite LvglFacts.lookup_update_ne.
  - split; [eexists; split; reflexivity|reflexivity].
  - split; [eexists; split; reflexivity|]. split; reflexivity.
Qed.

(** X8. The timer of the singleton widget never stops once it is started:
    in every reachable state either the widget is not initialised and the
    work queue has nothing to run, or the work is scheduled one second
    ahead, and then the next expiry runs the handler, which shows the
    uptime of that instant.  USB and battery events do not disturb it. *)
Theorem timer_never_stops (e : env) (s : Singleton.world) :
  SingletonRun.reachable s ->
  Measure.singleton_timer_ok s /\
  (Singleton.time_label s = NULL -> Singleton.work_queue_step e s = None) /\
  (Singleton.time_label s <> NULL ->
   exists s', Singleton.work_queue_step e s
              = Some (set_uptime (k_uptime_get e + K_SECONDS 1) e, s') /\
              SingletonRun.armed s' /\
              SingletonRun.clock_text s'
              = Some (time_str (k_uptime_get e + K_SECONDS 1))).
Proof.
  intros R. pose proof (SingletonShown.timer_ok_reachable s R) as Hok.
  split; [exact Hok|]. split.
  - intros Hnull. destruct Hok as [[_ Hz]|[Hl _]]; [|contradiction].
    unfold Singleton.work_queue_step. rewrite Hz. reflexivity.
  - intros Hl. destruct Hok as [[Hnull _]|[_ Ha]]; [contradiction|].
    destruct (SingletonFacts.ticking_step e s) as (s' & Hs & (_ & _ & Ha') & Ht).
    { split; [apply SingletonFacts.inv_reachable, R|]. split; assumption. }
    exists s'. auto.
Qed.

(** After initialisation, a USB event and a battery event the next expiry
    still comes one second later. *)
Lemma timer_never_stops_witness :
  let s := Singleton.widget_battery_status_update_cb (set_battery 15 env0)
             (snd (Singleton.widget_event_listener env0 singleton0)) in
  exists s', Singleton.work_queue_step env0 s
             = Some (set_uptime 3662000 env0, s') /\
             SingletonRun.armed s' /\
             SingletonRun.clock_text s' = Some "01:01".
Proof.
  cbv zeta.
  refine (proj2 (proj2 (timer_never_stops env0 _
            (SingletonRun.reach_battery_event _ _
               (SingletonRun.reach_usb_event env0 _
                  (SingletonRun.reach_init env0 (Some 0%nat) _
                     (SingletonRun.reach_boot store0)))))) _).
  vm_compute. discriminate.
Defined.

(** X9. The display of the singleton widget is well formed in every
    reachable state: before initialisation all four handles are null; after
    it all four are set, the connection label shows the connected glyph
    exactly when [is_connected] is true and the blank one otherwise, the
    clock label shows a formatted uptime, the date label the fixed date and
    the battery label one of the five battery glyphs. *)
Theorem display_well_formed (s : Singleton.world) :
  SingletonRun.reachable s -> Measure.singleton_shown s.
Proof. apply SingletonShown.shown_reachable. Qed.

Lemma display_well_formed_witness :
  Measure.singleton_display_ok
    (Singleton.widget_battery_status_update_cb (set_battery 15 env0)
       (snd (Singleton.widget_event_listener (mk_env false false 45 0) singleton0))).
Proof.
  destruct (display_well_formed _
              (SingletonRun.reach_battery_event (set_battery 15 env0) _
                 (SingletonRun.reach_usb_event (mk_env false false 45 0) _
                    (SingletonRun.reach_init env0 (Some 0%nat) _
                       (SingletonRun.reach_boot store0)))))
    as [(H & _)|(_ & _ & _ & _ & H)].
  - vm_compute in H. discriminate H.
  - exact H.
Defined.

(** X10. The battery glyph is monotone in the reading: of two readings
    in 0..255 the larger never shows an emptier glyph, in any variant. *)
Theorem battery_monotone (e : env) (p q : Z) (s1 : Singleton.world)
    (icon : ptr) (d : display) (s3 : Screen.world) :
  0 <= p <= q -> q <= 255 ->
  is_label (Singleton.battery_icon s1) (Singleton.lv s1) ->
  is_label icon d ->
  is_label (Screen.battery_icon (Screen.state s3)) (Screen.lv s3) ->
  let level shown := from_option Measure.fullness 0%nat shown in
  (level (SingletonRun.battery_text (Singleton.update_battery_icon (set_battery p e) s1))
   <= level (SingletonRun.battery_text
               (Singleton.update_battery_icon (set_battery q e) s1)))%nat /\
  (level (lv_label_get_text icon (Instance.update_battery_icon (set_battery p e) icon d))
   <= level (lv_label_get_text icon
               (Instance.update_battery_icon (set_battery q e) icon d)))%nat /\
  (level (ScreenRun.battery_text (Screen.set_battery_status (set_battery p e) s3))
   <= level (ScreenRun.battery_text
               (Screen.set_battery_status (set_battery q e) s3)))%nat /\
  (Measure.fullness LV_SYMBOL_BATTERY_EMPTY < Measure.fullness LV_SYMBOL_BATTERY_1
   < Measure.fullness LV_SYMBOL_BATTERY_2)%nat /\
  (Measure.fullness LV_SYMBOL_BATTERY_2 < Measure.fullness LV_SYMBOL_BATTERY_3
   < Measure.fullness LV_SYMBOL_BATTERY_FULL)%nat.
Proof.
  intros Hp Hq H1 H2 H3. cbv zeta.
  rewrite !SingletonFacts.update_battery_icon_text by exact H1.
  rewrite !InstanceFacts.inst_update_battery_icon_text by exact H2.
  rewrite !ScreenFacts.set_battery_status_text by exact H3.
  cbn [from_option].
  pose proof (VariantsMore.fullness_shown e p q Hp Hq) as H.
  split; [exact H|]. split; [exact H|]. split; [exact H|].
  split; vm_compute; lia.
Qed.

Lemma battery_monotone_witness :
  (from_option Measure.fullness 0%nat
     (SingletonRun.battery_text
        (Singleton.update_battery_icon (set_battery 15 env0) singleton0))
   <= from_option Measure.fullness 0%nat
        (SingletonRun.battery_text
           (Singleton.update_battery_icon (set_battery 45 env0) singleton0)))%nat.
Proof.
  exact (proj1 (battery_monotone env0 15 45 singleton0
                  (Instance.battery_icon (fst instance0)) (Instance.lv (snd instance0))
                  screen0 ltac:(lia) ltac:(lia)
                  ltac:(vm_compute; eexists; reflexivity)
                  ltac:(vm_compute; eexists; reflexivity)
                  ltac:(vm_compute; eexists; reflexivity))).
Defined.

(** X11. Two per-instance widgets on one display do not interfere.  When a
    second instance is initialised after a first, the labels of the first
    keep their texts, the eight label handles are pairwise different across
    the two instances, and a connection, time or battery refresh through a
    handle of one instance leaves every label of the other as it was. *)
Theorem instances_independent (e1 e2 e3 : env) (wa wb : Instance.zmk_widget_status)
    (p1 p2 : ptr) (s : Instance.world) (h1 h2 : ptr) :
  let r1 := Instance.zmk_widget_status_init e1 wa p1 s in
  let w1 := snd (fst r1) in
  let r2 := Instance.zmk_widget_status_init e2 wb p2 (snd r1) in
  let w2 := snd (fst r2) in
  let d2 := Instance.lv (snd r2) in
  h1 ∈ Measure.instance_labels w1 ->
  h2 ∈ Measure.instance_labels w2 ->
  h1 <> h2 /\
  lv_label_get_text h1 d2 = lv_label_get_text h1 (Instance.lv (snd r1)) /\
  (lv_label_get_text h1 (Instance.update_connection_icon e3 h2 d2)
   = lv_label_get_text h1 d2 /\
   lv_label_get_text h1 (Instance.update_time_display e3 h2 d2)
   = lv_label_get_text h1 d2 /\
   lv_label_get_text h1 (Instance.update_battery_icon e3 h2 d2)
   = lv_label_get_text h1 d2) /\
  (lv_label_get_text h2 (Instance.update_connection_icon e3 h1 d2)
   = lv_label_get_text h2 d2 /\
   lv_label_get_text h2 (Instance.update_time_display e3 h1 d2)
   = lv_label_get_text h2 d2 /\
   lv_label_get_text h2 (Instance.update_battery_icon e3 h1 d2)
   = lv_label_get_text h2 d2).
Proof.
  cbv zeta. rewrite !InstanceFacts.inst_init_closed. cbv zeta. cbn [fst snd Instance.lv].
  unfold Measure.instance_labels.
  cbn [Instance.connection_icon Instance.time_label Instance.date_label
       Instance.battery_icon].
  rewrite length_app. cbn [length Built.instance_objects].
  set (n := length (Instance.lv s)).
  intros H1 H2.
  assert (Hne : h1 <> h2).
  { rewrite !elem_of_cons, elem_of_nil in H1, H2.
    destruct H1 as [->|[->|[->|[->|[]]]]], H2 as [->|[->|[->|[->|[]]]]];
      intros [= E]; lia. }
  assert (Hlt : exists j, h1 = Some j /\ (j < n + 6)%nat).
  { rewrite !elem_of_cons, elem_of_nil in H1.
    destruct H1 as [->|[->|[->|[->|[]]]]]; eexists; (split; [reflexivity|lia]). }
  destruct Hlt as (j & -> & Hj).
  split; [exact Hne|]. split.
  - apply LvglFacts.get_text_app_l. rewrite length_app.
    cbn [length Built.instance_objects]. fold n. lia.
  - rewrite !InstanceFacts.inst_update_connection_icon_eq,
      !InstanceFacts.inst_update_battery_icon_eq.
    unfold Instance.update_time_display.
    destruct h2 as [k|];
      [|rewrite !elem_of_cons, elem_of_nil in H2;
        destruct H2 as [H2|[H2|[H2|[H2|[]]]]]; discriminate H2].
    split; (split; [|split]); apply LvglFacts.get_text_set_text_ne; congruence.
Qed.

Lemma instances_independent_witness :
  let r2 := Instance.zmk_widget_status_init (set_battery 90 env0)
              (Instance.mk_widget NULL NULL NULL NULL NULL) (Some 0%nat) (snd instance0) in
  lv_label_get_text (Instance.battery_icon (fst instance0))
    (Instance.update_battery_icon (set_battery 15 env0)
       (Instance.battery_icon (snd (fst r2))) (Instance.lv (snd r2)))
  = Some LV_SYMBOL_BATTERY_2.
Proof.
  cbv zeta.
  destruct (instances_independent env0 (set_battery 90 env0) (set_battery 15 env0)
              (Instance.mk_widget NULL NULL NULL NULL NULL)
              (Instance.mk_widget NULL NULL NULL NULL NULL)
              (Some 0%nat) (Some 0%nat) (Instance.boot store0)
              (Instance.battery_icon (fst instance0))
              (Instance.battery_icon
                 (snd (fst (Instance.zmk_widget_status_init (set_battery 90 env0)
                              (Instance.mk_widget NULL NULL NULL NULL NULL)
                              (Some 0%nat) (snd instance0)))))
              ltac:(cbv zeta; unfold Measure.instance_labels; repeat constructor)
              ltac:(cbv zeta; unfold Measure.instance_labels; repeat constructor))
    as (_ & Hkeep & (_ & _ & Hb) & _).
  cbv zeta in Hkeep, Hb.
  etransitivity; [exact Hb|]. etransitivity; [exact Hkeep|]. reflexivity.
Defined.
